(** * Sign-In with Ethereum (EIP-4361) messages: siwe/siwe.py

    A shallow embedding of [SiweMessage] (construction, [prepare_message],
    [verify]), [check_contract_wallet_signature] and [generate_nonce], and
    the properties of the canonical text and of the verification order. *)

From Stdlib Require Import String Ascii List ZArith Bool Lia PeanoNat.
From Stdlib Require Import DecimalString.
Import ListNotations.

Local Open Scope list_scope.
Local Open Scope string_scope.

(** ** Python values used by the module *)

(** ["\n"] *)
Definition LF : string := String (ascii_of_nat 10) EmptyString.

(** [sep.join(items)] *)
Fixpoint join (sep : string) (items : list string) : string :=
  match items with
  | [] => ""
  | [x] => x
  | x :: rest => x ++ sep ++ join sep rest
  end.

(** [str(n)] for an [int]. *)
Definition str_int (n : Z) : string := NilZero.string_of_int (Z.to_int n).

(** [f"{value}"] for a field that holds a [str] or [None]. *)
Definition py_str (value : option string) : string :=
  match value with
  | Some s => s
  | None => "None"
  end.

(** Truth value of a field that holds a [str] or [None]:
    [None] and the empty string are false. *)
Definition truthy (value : option string) : bool :=
  match value with
  | None => false
  | Some "" => false
  | Some _ => true
  end.

(** Truth value of a field that holds a list or [None]. *)
Definition truthy_list {A : Type} (value : option (list A)) : bool :=
  match value with
  | None => false
  | Some [] => false
  | Some _ => true
  end.

(** The items of a field that holds a list or [None], for iteration once
    the field is known to be true. *)
Definition py_list {A : Type} (value : option (list A)) : list A :=
  match value with
  | Some items => items
  | None => []
  end.

(** [value or default] on a field that holds a [str] or [None]. *)
Definition str_or (value : option string) (default : string) : string :=
  if truthy value then py_str value else default.

(** [value or default] on a field that holds an [int] or [None]:
    [None] and [0] are false. *)
Definition int_or (value : option Z) (default : Z) : Z :=
  match value with
  | Some z => if Z.eqb z 0 then default else z
  | None => default
  end.

(** [a != b] where [a] holds a [str] or [None] and [b] is a [str]. *)
Definition differs (a : option string) (b : string) : bool :=
  match a with
  | Some s => negb (String.eqb s b)
  | None => true
  end.

(** [items.append(x)] *)
Definition append {A : Type} (items : list A) (x : A) : list A :=
  (items ++ [x])%list.

(** [datetime]: the wall-clock reading in microseconds and, for an aware
    value, the offset of its time zone from UTC. *)
Record datetime : Type := {
  wall : Z;
  utcoffset : option Z
}.

(** ** Exceptions *)

(** What signature recovery raises: [eth_utils.exceptions.ValidationError],
    [eth_keys.exceptions.BadSignature], or an exception of another class. *)
Inductive library_exn : Type :=
| ValidationError
| BadSignature
| OtherException (name : string).

Inductive exn : Type :=
| TypeError
| ValueError (msg : string)
| IndexError
| NotImplementedError (msg : string)
| MalformedSession (missing_fields : list string)
| DomainMismatch
| NonceMismatch
| ExpiredMessage
| NotYetValidMessage
| InvalidSignature
| LibraryError (e : library_exn).

(** What [isoparse] raises on text it does not accept: a [ValueError], or
    an exception of another class (an [OverflowError] for a time of day out
    of range, for one). *)
Inductive isoparse_exn : Type :=
| IsoValueError (msg : string)
| IsoOtherException (name : string).

(** The exception of the module's caller for what [isoparse] raised. *)
Definition raised_by_isoparse (x : isoparse_exn) : exn :=
  match x with
  | IsoValueError msg => ValueError msg
  | IsoOtherException name => LibraryError (OtherException name)
  end.

Inductive outcome (A : Type) : Type :=
| Return (a : A)
| Raise (e : exn).
Arguments Return {A} a.
Arguments Raise {A} e.

(** [a >= b] on [datetime]: two aware values are compared as instants, two
    naive values by their wall clock, and a naive value is not comparable
    with an aware one. *)
Definition datetime_ge (a b : datetime) : outcome bool :=
  match utcoffset a, utcoffset b with
  | Some oa, Some ob => Return (Z.leb (wall b - ob) (wall a - oa))
  | None, None => Return (Z.leb (wall b) (wall a))
  | _, _ => Raise TypeError
  end.

(** [a <= b] on [datetime]. *)
Definition datetime_le (a b : datetime) : outcome bool := datetime_ge b a.

(** ** State and exceptions *)

Definition M (S A : Type) : Type := S -> outcome A * S.

Definition ret {S A : Type} (a : A) : M S A := fun s => (Return a, s).

Definition raise {S A : Type} (e : exn) : M S A := fun s => (Raise e, s).

Definition bind {S A B : Type} (c : M S A) (k : A -> M S B) : M S B :=
  fun s =>
    match c s with
    | (Return a, s') => k a s'
    | (Raise e, s') => (Raise e, s')
    end.

(** A computation that has no state of its own. *)
Definition of_outcome {S A : Type} (o : outcome A) : M S A := fun s => (o, s).

(** [try: c except classes: raise e] *)
Definition try_except {S A : Type} (c : M S A) (caught : exn -> bool) (e : exn)
  : M S A :=
  fun s =>
    match c s with
    | (Return a, s') => (Return a, s')
    | (Raise e', s') => if caught e' then (Raise e, s') else (Raise e', s')
    end.

Declare Scope py_scope.
Delimit Scope py_scope with py.
Notation "x <- c ;; k" := (bind c (fun x => k))
  (at level 61, c at next level, right associativity) : py_scope.
Notation "c ;; k" := (bind c (fun _ => k))
  (at level 61, right associativity) : py_scope.
Local Open Scope py_scope.

(** [[body() for _ in range(n)]] *)
Fixpoint repeat_n {S A : Type} (n : nat) (body : M S A) : M S (list A) :=
  match n with
  | O => ret []
  | S n' => x <- body ;; xs <- repeat_n n' body ;; ret (x :: xs)
  end.

(** ** The process environment *)

(** Calls that leave the module. *)
Inductive event : Type :=
| EvRandom
| EvClockLocal
| EvClockUTC
| EvRecover (signature : string).

(** The system randomness source is a stream of draws, the system clock a
    stream of readings (microseconds); [trace] records the calls made. *)
Record World : Type := {
  entropy : nat -> nat;
  draws : nat;
  clock : nat -> Z;
  reads : nat;
  trace : list event
}.

Definition log (e : event) (w : World) : World :=
  {| entropy := entropy w; draws := draws w;
     clock := clock w; reads := reads w;
     trace := (trace w ++ [e])%list |}.

(** [secrets.randbelow(n)] *)
Definition randbelow (n : nat) : M World nat :=
  fun w =>
    (Return (Nat.modulo (entropy w (draws w)) n),
     log EvRandom
       {| entropy := entropy w; draws := S (draws w);
          clock := clock w; reads := reads w; trace := trace w |}).

(** [secrets.choice(seq)] *)
Definition secrets_choice (seq : string) : M World ascii :=
  if Nat.eqb (String.length seq) 0 then raise IndexError
  else
    i <- randbelow (String.length seq) ;;
    match String.get i seq with
    | Some c => ret c
    | None => raise IndexError
    end.

(** One reading of the system clock. *)
Definition read_clock (e : event) : M World Z :=
  fun w =>
    (Return (clock w (reads w)),
     log e
       {| entropy := entropy w; draws := draws w;
          clock := clock w; reads := S (reads w); trace := trace w |}).

(** ** generate_nonce *)

Definition ascii_lowercase : string := "abcdefghijklmnopqrstuvwxyz".
Definition ascii_uppercase : string := "ABCDEFGHIJKLMNOPQRSTUVWXYZ".
Definition ascii_letters : string := ascii_lowercase ++ ascii_uppercase.
Definition digits : string := "0123456789".

Definition alphanumerics : string := ascii_letters ++ digits.

Definition generate_nonce : M World string :=
  cs <- repeat_n 11 (secrets_choice alphanumerics) ;;
  ret (join "" (map (fun c => String c EmptyString) cs)).

(** ** The message *)

Record SiweMessage : Type := {
  domain : option string;
  address : option string;
  statement : option string;
  uri : option string;
  chain_id : option Z;
  version : option string;
  nonce : option string;
  issued_at : option string;
  expiration_time : option string;
  not_before : option string;
  request_id : option string;
  resources : option (list string);
  _require_address : bool
}.

Definition set_nonce (v : option string) (m : SiweMessage) : SiweMessage :=
  {| domain := domain m; address := address m; statement := statement m;
     uri := uri m; chain_id := chain_id m; version := version m;
     nonce := v; issued_at := issued_at m;
     expiration_time := expiration_time m; not_before := not_before m;
     request_id := request_id m; resources := resources m;
     _require_address := _require_address m |}.

Definition set_issued_at (v : option string) (m : SiweMessage) : SiweMessage :=
  {| domain := domain m; address := address m; statement := statement m;
     uri := uri m; chain_id := chain_id m; version := version m;
     nonce := nonce m; issued_at := v;
     expiration_time := expiration_time m; not_before := not_before m;
     request_id := request_id m; resources := resources m;
     _require_address := _require_address m |}.

(** The [chain_id] entry of a field mapping: an [int], or text to coerce. *)
Inductive chain_value : Type :=
| ChainInt (z : Z)
| ChainStr (s : string).

(** The field mapping a message is built from: [message_dict.get(key)] for
    every slot, [None] for a key the mapping does not have. *)
Record message_dict : Type := {
  key_domain : option string;
  key_address : option string;
  key_statement : option string;
  key_uri : option string;
  key_chain_id : option chain_value;
  key_version : option string;
  key_nonce : option string;
  key_issued_at : option string;
  key_expiration_time : option string;
  key_not_before : option string;
  key_request_id : option string;
  key_resources : option (list string)
}.

(** The [message] argument of the constructor. *)
Inductive message_input : Type :=
| MessageStr (text : string)
| MessageDict (fields : message_dict)
| MessageOther.

(** [eth_account.messages.SignableMessage] *)
Record SignableMessage : Type := {
  sm_version : string;
  sm_header : string;
  sm_body : string
}.

(** [web3.HTTPProvider] *)
Inductive HTTPProvider : Type :=
| HTTPProvider_at (endpoint_uri : string).

(** The collaborators of the module: the two parsers of [siwe.parsed] and
    the libraries [eth_utils], [rfc3987], [dateutil], [eth_account] and the
    locale of the process. *)
Record Externals : Type := {
  ABNFParsedMessage : string -> outcome message_dict;
  RegExpParsedMessage : string -> outcome message_dict;
  (** [int(value)] on text: the integer, or the message of its [ValueError] *)
  int_of_str : string -> string + Z;
  (** [isoparse(value)]: the time, or what it raises *)
  isoparse : string -> isoparse_exn + datetime;
  is_checksum_formatted_address : string -> bool;
  (** [rfc3987.parse(value, rule="URI")]: [false] when it raises [ValueError] *)
  rfc3987_parse_URI : string -> bool;
  (** [datetime.now().astimezone().isoformat()] at a clock reading *)
  local_isoformat : Z -> string;
  encode_defunct : string -> SignableMessage;
  (** [Account.recover_message(message, signature=...)] *)
  recover_message : SignableMessage -> string -> library_exn + string
}.

(** The state a method runs in: the object and the process environment. *)
Record State : Type := {
  self : SiweMessage;
  world : World
}.

Definition get_self : M State SiweMessage :=
  fun s => (Return (self s), s).

Definition set_self (f : SiweMessage -> SiweMessage) : M State unit :=
  fun s => (Return tt, {| self := f (self s); world := world s |}).

(** A module-level function called from a method. *)
Definition in_world {A : Type} (c : M World A) : M State A :=
  fun s =>
    let (r, w) := c (world s) in
    (r, {| self := self s; world := w |}).

Section Siwe.

Variable ext : Externals.

(** *** SiweMessage.__init__ *)

(** The body of [for key in self.__slots__], one definition per key that
    the loop treats; the other keys are stored as they are. *)

Definition init_domain (value : option string) : outcome (option string) :=
  match value with
  | Some "" => Raise (ValueError "Message `domain` must not be empty")
  | _ => Return value
  end.

Definition init_address (value : option string) : outcome (option string) :=
  match value with
  | Some a =>
      if negb (is_checksum_formatted_address ext a)
      then Raise (ValueError "Message `address` must be in EIP-55 format")
      else Return value
  | None => Return value
  end.

Definition init_uri (value : option string) : outcome (option string) :=
  match value with
  | Some u =>
      if rfc3987_parse_URI ext u then Return value
      else Raise (ValueError "Invalid format for field `uri`")
  | None => Return value
  end.

Definition init_chain_id (value : option chain_value) : outcome (option Z) :=
  match value with
  | Some (ChainInt z) => Return (Some z)
  | Some (ChainStr s) =>
      match int_of_str ext s with
      | inr z => Return (Some z)
      | inl msg => Raise (ValueError msg)
      end
  | None => Return None
  end.

(** [issued_at], [expiration_time] and [not_before]: [isoparse(value)] is
    called for its exception only. *)
Definition init_datetime (value : option string) : outcome (option string) :=
  match value with
  | Some t =>
      match isoparse ext t with
      | inr _ => Return value
      | inl x => Raise (raised_by_isoparse x)
      end
  | None => Return value
  end.

Fixpoint check_resources (urls : list string) : outcome unit :=
  match urls with
  | [] => Return tt
  | url :: rest =>
      if rfc3987_parse_URI ext url then check_resources rest
      else Raise (ValueError "Invalid format for field `resources`")
  end.

Definition init_resources (value : option (list string))
  : outcome (option (list string)) :=
  match value with
  | Some urls =>
      match check_resources urls with
      | Return _ => Return value
      | Raise e => Raise e
      end
  | None => Return value
  end.

Definition obind {A B : Type} (o : outcome A) (k : A -> outcome B) : outcome B :=
  match o with
  | Return a => k a
  | Raise e => Raise e
  end.

(** The loop over [__slots__], in the order of the slots. *)
Definition init_fields (message_dict : message_dict) (require_address : bool)
  : outcome SiweMessage :=
  obind (init_domain (key_domain message_dict)) (fun domain =>
  obind (init_address (key_address message_dict)) (fun address =>
  let statement := key_statement message_dict in
  obind (init_uri (key_uri message_dict)) (fun uri =>
  obind (init_chain_id (key_chain_id message_dict)) (fun chain_id =>
  let version := key_version message_dict in
  let nonce := key_nonce message_dict in
  obind (init_datetime (key_issued_at message_dict)) (fun issued_at =>
  obind (init_datetime (key_expiration_time message_dict)) (fun expiration_time =>
  obind (init_datetime (key_not_before message_dict)) (fun not_before =>
  let request_id := key_request_id message_dict in
  obind (init_resources (key_resources message_dict)) (fun resources =>
  Return
    {| domain := domain; address := address; statement := statement;
       uri := uri; chain_id := chain_id; version := version;
       nonce := nonce; issued_at := issued_at;
       expiration_time := expiration_time; not_before := not_before;
       request_id := request_id; resources := resources;
       _require_address := require_address |})))))))).

(** The field mapping of the [message] argument: the attributes of the parsed
    message for text, the mapping itself otherwise. *)
Definition fields_of (message : message_input) (abnf : bool)
  : outcome message_dict :=
  match message with
  | MessageStr text =>
      if abnf then ABNFParsedMessage ext text
      else RegExpParsedMessage ext text
  | MessageDict fields => Return fields
  | MessageOther => Raise TypeError
  end.

Definition SiweMessage_init (message : message_input)
  (abnf require_address : bool) : outcome SiweMessage :=
  obind (fields_of message abnf) (fun message_dict =>
  init_fields message_dict require_address).

(** *** SiweMessage.prepare_message *)

Definition prepare_message : M State string :=
  s0 <- get_self ;;
  let header :=
    py_str (domain s0) ++ " wants you to sign in with your Ethereum account:" in
  let uri_field := "URI: " ++ py_str (uri s0) in
  let prefix := join LF [header; str_or (address s0) ""] in
  let version_field := "Version: " ++ py_str (version s0) in
  match nonce s0 with
  | None => n <- in_world generate_nonce ;; set_self (set_nonce (Some n))
  | Some _ => ret tt
  end ;;
  s1 <- get_self ;;
  let chain_field := "Chain ID: " ++ str_int (int_or (chain_id s1) 1) in
  let nonce_field := "Nonce: " ++ py_str (nonce s1) in
  let suffix_array := [uri_field; version_field; chain_field; nonce_field] in
  match issued_at s1 with
  | None =>
      t <- in_world (read_clock EvClockLocal) ;;
      set_self (set_issued_at (Some (local_isoformat ext t)))
  | Some _ => ret tt
  end ;;
  s2 <- get_self ;;
  let issued_at_field := "Issued At: " ++ py_str (issued_at s2) in
  let suffix_array := append suffix_array issued_at_field in
  let suffix_array :=
    if truthy (expiration_time s2)
    then append suffix_array ("Expiration Time: " ++ py_str (expiration_time s2))
    else suffix_array in
  let suffix_array :=
    if truthy (not_before s2)
    then append suffix_array ("Not Before: " ++ py_str (not_before s2))
    else suffix_array in
  let suffix_array :=
    if truthy (request_id s2)
    then append suffix_array ("Request ID: " ++ py_str (request_id s2))
    else suffix_array in
  let suffix_array :=
    if truthy_list (resources s2)
    then
      let resources_field :=
        join LF ("Resources:"
                   :: map (fun resource => "- " ++ resource)
                        (py_list (resources s2))) in
      append suffix_array resources_field
    else suffix_array in
  let suffix := join LF suffix_array in
  let prefix :=
    if truthy (statement s2)
    then join (LF ++ LF) [prefix; py_str (statement s2)]
    else prefix ++ LF in
  ret (join (LF ++ LF) [prefix; suffix]).

(** *** SiweMessage.get_expiration_time, SiweMessage.get_not_before *)

(** [isoparse(value)] as a call. *)
Definition call_isoparse (value : string) : outcome datetime :=
  match isoparse ext value with
  | inr d => Return d
  | inl x => Raise (raised_by_isoparse x)
  end.

Definition parse_optional (value : option string) : M State (option datetime) :=
  match value with
  | Some t => d <- of_outcome (call_isoparse t) ;; ret (Some d)
  | None => ret None
  end.

Definition get_expiration_time : M State (option datetime) :=
  s <- get_self ;; parse_optional (expiration_time s).

Definition get_not_before : M State (option datetime) :=
  s <- get_self ;; parse_optional (not_before s).

(** *** SiweMessage.verify *)

(** [datetime.now(UTC)] *)
Definition now_utc : M World datetime :=
  t <- read_clock EvClockUTC ;; ret {| wall := t; utcoffset := Some 0%Z |}.

(** [w3.eth.account.recover_message(message, signature=signature)] *)
Definition call_recover_message (message : SignableMessage) (signature : string)
  : M World string :=
  fun w =>
    (match recover_message ext message signature with
     | inr a => Return a
     | inl e => Raise (LibraryError e)
     end,
     log (EvRecover signature) w).

(** The classes of [except (ValidationError, BadSignature)]. *)
Definition recovery_error (e : exn) : bool :=
  match e with
  | LibraryError ValidationError | LibraryError BadSignature => true
  | _ => false
  end.

Definition is_none {A : Type} (value : option A) : bool :=
  match value with
  | None => true
  | Some _ => false
  end.

(** [expected is not None and field != expected] *)
Definition mismatch (field expected : option string) : bool :=
  match expected with
  | Some e => differs field e
  | None => false
  end.

Definition verify (signature : string)
  (expected_domain expected_nonce : option string)
  (timestamp : option datetime) (provider : option HTTPProvider)
  : M State string :=
  text <- prepare_message ;;
  let message := Some (encode_defunct ext text) in
  s <- get_self ;;
  let missing : list string := [] in
  let missing := if is_none message then append missing "message" else missing in
  let missing :=
    if _require_address s && is_none (address s)
    then append missing "address" else missing in
  if Nat.ltb 0 (List.length missing) then raise (MalformedSession missing)
  else if mismatch (domain s) expected_domain then raise DomainMismatch
  else if mismatch (nonce s) expected_nonce then raise NonceMismatch
  else
    verification_time <-
      match timestamp with
      | None => in_world now_utc
      | Some t => ret t
      end ;;
    expiration_time <- get_expiration_time ;;
    expired <-
      match expiration_time with
      | Some e => of_outcome (datetime_ge verification_time e)
      | None => ret false
      end ;;
    if expired then raise ExpiredMessage
    else
      not_before <- get_not_before ;;
      early <-
        match not_before with
        | Some nb => of_outcome (datetime_le verification_time nb)
        | None => ret false
        end ;;
      if early then raise NotYetValidMessage
      else
        address' <-
          try_except
            match message with
            | Some sm => in_world (call_recover_message sm signature)
            | None => raise TypeError
            end
            recovery_error InvalidSignature ;;
        if truthy (address s) && differs (address s) address'
        then raise InvalidSignature
        else ret address'.

End Siwe.

(** ** check_contract_wallet_signature *)


(** ** Closed forms used in the statements *)

(** The character of the [k]-th draw of a nonce made in [w]. *)
Definition drawn_char (w : World) (k : nat) : ascii :=
  match String.get (Nat.modulo (entropy w (draws w + k))
                      (String.length alphanumerics)) alphanumerics with
  | Some c => c
  | None => zero
  end.

(** The nonce [generate_nonce] makes in [w]. *)
Definition drawn_nonce (w : World) : string :=
  join "" (map (fun c => String c EmptyString) (map (drawn_char w) (seq 0 11))).

(** The environment after [n] draws of the randomness source. *)
Definition after_draws (n : nat) (w : World) : World :=
  {| entropy := entropy w; draws := draws w + n;
     clock := clock w; reads := reads w;
     trace := (trace w ++ repeat EvRandom n)%list |}.

(** The environment after one reading of the clock. *)
Definition after_read (e : event) (w : World) : World :=
  {| entropy := entropy w; draws := draws w;
     clock := clock w; reads := S (reads w);
     trace := (trace w ++ [e])%list |}.

(** The object and the environment once [nonce] and [issued_at] are filled. *)
Definition fill_nonce (s : State) : State :=
  match nonce (self s) with
  | None =>
      {| self := set_nonce (Some (drawn_nonce (world s))) (self s);
         world := after_draws 11 (world s) |}
  | Some _ => s
  end.

Definition fill_issued_at (ext : Externals) (s : State) : State :=
  match issued_at (self s) with
  | None =>
      {| self :=
           set_issued_at
             (Some (local_isoformat ext (clock (world s) (reads (world s)))))
             (self s);
         world := after_read EvClockLocal (world s) |}
  | Some _ => s
  end.

Definition defaulted (ext : Externals) (s : State) : State :=
  fill_issued_at ext (fill_nonce s).

(** The alphanumeric alphabet: upper-case letters, lower-case letters, digits. *)
Definition is_alphanumeric (c : ascii) : bool :=
  let n := nat_of_ascii c in
  (Nat.leb 65 n && Nat.leb n 90)
  || (Nat.leb 97 n && Nat.leb n 122)
  || (Nat.leb 48 n && Nat.leb n 57).

(** The characters of a text. *)
Definition chars (s : string) : list ascii := list_ascii_of_string s.

(** ** The layout of the canonical text, line by line *)

(** A line for an optional field, when the field is set and not empty. *)
Definition optional_line (label : string) (value : option string) : list string :=
  match value with
  | Some v => if truthy value then [label ++ v] else []
  | None => []
  end.

(** The statement block: a blank line and the statement, or a single blank
    line when the statement is omitted. *)
Definition statement_block (value : option string) : list string :=
  match value with
  | Some v => if truthy value then [""; v] else [""]
  | None => [""]
  end.

Definition resources_block (value : option (list string)) : list string :=
  match value with
  | Some (r :: rs) => "Resources:" :: map (fun uri => "- " ++ uri) (r :: rs)
  | _ => []
  end.

Definition header_line (m : SiweMessage) : string :=
  py_str (domain m) ++ " wants you to sign in with your Ethereum account:".

Definition address_line (m : SiweMessage) : string := str_or (address m) "".

Definition first_block (m : SiweMessage) : list string :=
  header_line m :: address_line m :: statement_block (statement m).

Definition uri_line (m : SiweMessage) : string := "URI: " ++ py_str (uri m).

Definition version_line (m : SiweMessage) : string :=
  "Version: " ++ py_str (version m).

Definition chain_id_line (m : SiweMessage) : string :=
  "Chain ID: " ++ str_int (int_or (chain_id m) 1).

Definition nonce_line (m : SiweMessage) : string :=
  "Nonce: " ++ py_str (nonce m).

Definition issued_at_line (m : SiweMessage) : string :=
  "Issued At: " ++ py_str (issued_at m).

Definition optional_lines (m : SiweMessage) : list string :=
  app (optional_line "Expiration Time: " (expiration_time m))
    (app (optional_line "Not Before: " (not_before m))
       (app (optional_line "Request ID: " (request_id m))
          (resources_block (resources m)))).

Definition final_block (m : SiweMessage) : list string :=
  uri_line m :: version_line m :: chain_id_line m :: nonce_line m
    :: issued_at_line m :: optional_lines m.

(** The lines of the canonical text: the first block, one blank line, the
    final block. *)
Definition canonical_lines (m : SiweMessage) : list string :=
  app (first_block m) ("" :: final_block m).

(** ** The text of prepare_message, as the method builds it *)

(** The array [suffix_array] of [prepare_message] once all fields are read. *)
Definition suffix_array_of (m : SiweMessage) : list string :=
  let suffix_array :=
    [uri_line m; version_line m; chain_id_line m; nonce_line m] in
  let suffix_array := append suffix_array (issued_at_line m) in
  let suffix_array :=
    if truthy (expiration_time m)
    then append suffix_array ("Expiration Time: " ++ py_str (expiration_time m))
    else suffix_array in
  let suffix_array :=
    if truthy (not_before m)
    then append suffix_array ("Not Before: " ++ py_str (not_before m))
    else suffix_array in
  let suffix_array :=
    if truthy (request_id m)
    then append suffix_array ("Request ID: " ++ py_str (request_id m))
    else suffix_array in
  if truthy_list (resources m)
  then
    append suffix_array
      (join LF ("Resources:"
                  :: map (fun resource => "- " ++ resource)
                       (py_list (resources m))))
  else suffix_array.

(** The lines of the final block that are not resources. *)
Definition fixed_lines (m : SiweMessage) : list string :=
  [uri_line m; version_line m; chain_id_line m; nonce_line m; issued_at_line m].

Definition single_lines (m : SiweMessage) : list string :=
  app (fixed_lines m)
    (app (optional_line "Expiration Time: " (expiration_time m))
       (app (optional_line "Not Before: " (not_before m))
          (optional_line "Request ID: " (request_id m)))).

(** The text [prepare_message] returns for an object whose fields are [m]. *)
Definition text_of (m : SiweMessage) : string :=
  let prefix := join LF [header_line m; address_line m] in
  let suffix := join LF (suffix_array_of m) in
  let prefix :=
    if truthy (statement m)
    then join (LF ++ LF) [prefix; py_str (statement m)]
    else prefix ++ LF in
  join (LF ++ LF) [prefix; suffix].

(** ** The checks of verify, one by one *)

(** [None] when every check passes, the exception of the first check that
    does not pass otherwise. *)
Fixpoint first_failure (checks : list (outcome unit)) : option exn :=
  match checks with
  | [] => None
  | Return _ :: rest => first_failure rest
  | Raise e :: _ => Some e
  end.

Section Checks.

Variable ext : Externals.
(** The object when the checks run. *)
Variable m : SiweMessage.
Variables expected_domain expected_nonce : option string.
(** The verification instant. *)
Variable instant : datetime.
(** What signature recovery gives. *)
Variable recovered : library_exn + string.

Definition check_malformed : outcome unit :=
  if _require_address m && is_none (address m)
  then Raise (MalformedSession ["address"]) else Return tt.

Definition check_domain : outcome unit :=
  if mismatch (domain m) expected_domain then Raise DomainMismatch else Return tt.

Definition check_nonce : outcome unit :=
  if mismatch (nonce m) expected_nonce then Raise NonceMismatch else Return tt.

Definition check_expired : outcome unit :=
  match expiration_time m with
  | Some t =>
      obind (call_isoparse ext t) (fun e =>
      obind (datetime_ge instant e) (fun expired =>
      if expired then Raise ExpiredMessage else Return tt))
  | None => Return tt
  end.

Definition check_not_yet_valid : outcome unit :=
  match not_before m with
  | Some t =>
      obind (call_isoparse ext t) (fun nb =>
      obind (datetime_le instant nb) (fun early =>
      if early then Raise NotYetValidMessage else Return tt))
  | None => Return tt
  end.

Definition check_recovery : outcome unit :=
  match recovered with
  | inr _ => Return tt
  | inl e =>
      if recovery_error (LibraryError e) then Raise InvalidSignature
      else Raise (LibraryError e)
  end.

Definition check_address : outcome unit :=
  match recovered with
  | inr a =>
      if truthy (address m) && differs (address m) a
      then Raise InvalidSignature else Return tt
  | inl _ => Return tt
  end.

(** The checks made before the clock is read. *)
Definition context_checks : list (outcome unit) :=
  [check_malformed; check_domain; check_nonce].

(** The checks made before the signature is used. *)
Definition time_checks : list (outcome unit) :=
  [check_expired; check_not_yet_valid].

Definition signature_checks : list (outcome unit) :=
  [check_recovery; check_address].

Definition ordered_checks : list (outcome unit) :=
  app context_checks (app time_checks signature_checks).

End Checks.

(** The verification instant: the timestamp given, or the clock read in [w]. *)
Definition verification_instant (timestamp : option datetime) (w : World)
  : datetime :=
  match timestamp with
  | Some t => t
  | None => {| wall := clock w (reads w); utcoffset := Some 0%Z |}
  end.

Section VerifyRun.

Variable ext : Externals.
Variable signature : string.
Variables expected_domain expected_nonce : option string.
Variable timestamp : option datetime.
Variable s : State.

(** The object that [verify] checks: [self] once the text is produced. *)
Definition checked : SiweMessage := self (defaulted ext s).

Definition signed_text : string := text_of checked.

Definition instant : datetime :=
  verification_instant timestamp (world (defaulted ext s)).

Definition recovery : library_exn + string :=
  recover_message ext (encode_defunct ext signed_text) signature.

Definition checks : list (outcome unit) :=
  ordered_checks ext checked expected_domain expected_nonce instant recovery.

(** The result of the checks: the first failure, or the recovered address. *)
Definition checks_result : outcome string :=
  match first_failure checks, recovery with
  | Some e, _ => Raise e
  | None, inr a => Return a
  | None, inl e => Raise (LibraryError e)
  end.

(** The environment the checks leave: the clock is read once the context
    checks pass and no timestamp is given, the signature is used once the
    time checks pass too. *)
Definition checks_world : World :=
  let w := world (defaulted ext s) in
  match first_failure (context_checks checked expected_domain expected_nonce) with
  | Some _ => w
  | None =>
      let w :=
        match timestamp with
        | Some _ => w
        | None => after_read EvClockUTC w
        end in
      match first_failure (time_checks ext checked instant) with
      | Some _ => w
      | None => log (EvRecover signature) w
      end
  end.

End VerifyRun.

(** ** Notions used in the statements *)

(** [m] has the fields of [m0], [nonce] and [issued_at] apart. *)
Definition same_but_defaults (m0 m : SiweMessage) : Prop :=
  domain m = domain m0 /\ address m = address m0
  /\ statement m = statement m0 /\ uri m = uri m0
  /\ chain_id m = chain_id m0 /\ version m = version m0
  /\ expiration_time m = expiration_time m0
  /\ not_before m = not_before m0
  /\ request_id m = request_id m0 /\ resources m = resources m0
  /\ _require_address m = _require_address m0.

(** A field that is set keeps its value. *)
Definition kept {A : Type} (before after : option A) : Prop :=
  forall v, before = Some v -> after = Some v.

(** The calls a caller can make on a message. *)
Inductive method_call : Type :=
| CallPrepareMessage
| CallVerify (signature : string) (expected_domain expected_nonce : option string)
    (timestamp : option datetime) (provider : option HTTPProvider).

Definition run_call (ext : Externals) (c : method_call)
  : M State string :=
  match c with
  | CallPrepareMessage => prepare_message ext
  | CallVerify signature expected_domain expected_nonce timestamp provider =>
      verify ext signature expected_domain expected_nonce timestamp provider
  end.

(** [later ext m m']: the object is [m'] after some calls on an object that
    was [m], whatever the environment of each call. *)
Inductive later (ext : Externals) : SiweMessage -> SiweMessage -> Prop :=
| later_now (m : SiweMessage) : later ext m m
| later_call (m m' : SiweMessage) (c : method_call) (w : World) :
    later ext (self (snd (run_call ext c {| self := m; world := w |}))) m' ->
    later ext m m'.

(** The canonical lines with [v] on the Chain ID line. *)
Definition lines_with_chain_id (m : SiweMessage) (v : Z) : list string :=
  app (first_block m)
    ("" :: uri_line m :: version_line m :: ("Chain ID: " ++ str_int v)
        :: nonce_line m :: issued_at_line m :: optional_lines m).

(** The value on the Chain ID line for a stored [chain_id]: 1 when it is
    unset, the stored value when it is set and not zero. *)
Definition shown_chain_id (stored : option Z) (v : Z) : Prop :=
  (stored = None /\ v = 1%Z) \/ (stored = Some v /\ v <> 0%Z).

(** The expiration time is set and the instant is at or after it. *)
Definition at_or_after_expiration (ext : Externals) (m : SiweMessage)
  (instant : datetime) : Prop :=
  exists t e,
    expiration_time m = Some t /\ isoparse ext t = inr e
    /\ datetime_ge instant e = Return true.

(** The not-before time is set and the instant is at or before it. *)
Definition at_or_before_not_before (ext : Externals) (m : SiweMessage)
  (instant : datetime) : Prop :=
  exists t nb,
    not_before m = Some t /\ isoparse ext t = inr nb
    /\ datetime_le instant nb = Return true.

(** No expiration time, or the instant is strictly before it. *)
Definition before_expiration (ext : Externals) (m : SiweMessage)
  (instant : datetime) : Prop :=
  expiration_time m = None
  \/ exists t e,
       expiration_time m = Some t /\ isoparse ext t = inr e
       /\ datetime_ge instant e = Return false.

(** No not-before time, or the instant is strictly after it. *)
Definition after_not_before (ext : Externals) (m : SiweMessage)
  (instant : datetime) : Prop :=
  not_before m = None
  \/ exists t nb,
       not_before m = Some t /\ isoparse ext t = inr nb
       /\ datetime_le instant nb = Return false.

(** The model carries an explicit address and the recovered one differs. *)
Definition address_differs (m : SiweMessage) (recovered : string) : Prop :=
  exists a, address m = Some a /\ a <> "" /\ recovered <> a.


(** What [verify] does with the outcome of signature recovery. *)
Definition signature_stage (m : SiweMessage) (recovered : library_exn + string)
  : outcome string :=
  match recovered with
  | inl ValidationError | inl BadSignature => Raise InvalidSignature
  | inl (OtherException name) => Raise (LibraryError (OtherException name))
  | inr a =>
      if truthy (address m) && differs (address m) a
      then Raise InvalidSignature else Return a
  end.

(** ** A sample environment and sample messages *)

Module Sample.

Definition alice : string := "0x5B38Da6a701c568545dCfcB03FcB875f56beddC4".
Definition bob : string := "0xAb8483F64d9C6d1EcF9b849Ae677dD3315835cb2".

Definition t2020 : string := "2020-01-01T00:00:00Z".
Definition t2021 : string := "2021-01-01T00:00:00Z".
Definition t2022 : string := "2022-01-01T00:00:00Z".

(** Microseconds since the epoch. *)
Definition us2020 : Z := 1577836800000000.
Definition us2021 : Z := 1609459200000000.
Definition us2022 : Z := 1640995200000000.

Definition utc (t : Z) : datetime := {| wall := t; utcoffset := Some 0%Z |}.

Definition sample_isoparse (t : string) : isoparse_exn + datetime :=
  if String.eqb t t2020 then inr (utc us2020)
  else if String.eqb t t2021 then inr (utc us2021)
  else if String.eqb t t2022 then inr (utc us2022)
  else if String.eqb t "9999-12-31T24:00:00"
  then inl (IsoOtherException "OverflowError")
  else inl (IsoValueError "ISO string too short").

Definition sample_int (t : string) : string + Z :=
  match NilZero.int_of_string t with
  | Some n => inr (Z.of_int n)
  | None => inl "invalid literal for int() with base 10"
  end.

(** Signatures stand for their signer here. *)
Definition sample_recover (message : SignableMessage) (signature : string)
  : library_exn + string :=
  if String.eqb signature "0xa11ce" then inr alice
  else if String.eqb signature "0xb0b" then inr bob
  else inl BadSignature.

Definition ext : Externals :=
  {| ABNFParsedMessage := fun _ => Raise (ValueError "Message could not be parsed");
     RegExpParsedMessage := fun _ => Raise (ValueError "Message did not match the regular expression");
     int_of_str := sample_int;
     isoparse := sample_isoparse;
     is_checksum_formatted_address :=
       fun a => String.eqb a alice || String.eqb a bob;
     rfc3987_parse_URI := fun u => String.prefix "https://" u;
     local_isoformat := fun _ => "2021-01-01T00:00:00+00:00";
     encode_defunct :=
       fun text =>
         {| sm_version := "E";
            sm_header :=
              "thereum Signed Message:" ++ LF
                ++ str_int (Z.of_nat (String.length text));
            sm_body := text |};
     recover_message := sample_recover |}.

Definition w0 : World :=
  {| entropy := fun k => k; draws := 0;
     clock := fun _ => us2021; reads := 0; trace := [] |}.

(** A field mapping with nothing but a domain. *)
Definition only_domain : message_dict :=
  {| key_domain := Some "example.com"; key_address := None;
     key_statement := None; key_uri := None; key_chain_id := None;
     key_version := None; key_nonce := None; key_issued_at := None;
     key_expiration_time := None; key_not_before := None;
     key_request_id := None; key_resources := None |}.

(** A message with every mandatory field and no optional one. *)
Definition login : SiweMessage :=
  {| domain := Some "example.com"; address := Some alice;
     statement := None; uri := Some "https://example.com/login";
     chain_id := Some 1%Z; version := Some "1";
     nonce := Some "kEWepMt9knR6lWJ6A"; issued_at := Some t2021;
     expiration_time := None; not_before := None;
     request_id := None; resources := None;
     _require_address := true |}.

(** The same message with chain 0. *)
Definition chain_zero : SiweMessage :=
  {| domain := Some "example.com"; address := Some alice;
     statement := None; uri := Some "https://example.com/login";
     chain_id := Some 0%Z; version := Some "1";
     nonce := Some "kEWepMt9knR6lWJ6A"; issued_at := Some t2021;
     expiration_time := None; not_before := None;
     request_id := None; resources := None;
     _require_address := true |}.

(** On the Polygon chain, with a statement and two resources, and neither
    nonce nor time of issue yet. *)
Definition draft : SiweMessage :=
  {| domain := Some "example.com"; address := Some alice;
     statement := Some "Sign in to the example.";
     uri := Some "https://example.com/login";
     chain_id := Some 137%Z; version := Some "1";
     nonce := None; issued_at := None;
     expiration_time := Some t2022; not_before := None;
     request_id := None;
     resources := Some ["https://example.com/a"; "https://example.com/b"];
     _require_address := true |}.

(** Expired in 2020. *)
Definition expiring : SiweMessage :=
  {| domain := Some "example.com"; address := Some alice;
     statement := None; uri := Some "https://example.com/login";
     chain_id := Some 1%Z; version := Some "1";
     nonce := Some "kEWepMt9knR6lWJ6A"; issued_at := Some t2020;
     expiration_time := Some t2020; not_before := None;
     request_id := None; resources := None;
     _require_address := true |}.

(** Expired in 2020 and not valid before 2022. *)
Definition windowed : SiweMessage :=
  {| domain := Some "example.com"; address := Some alice;
     statement := None; uri := Some "https://example.com/login";
     chain_id := Some 1%Z; version := Some "1";
     nonce := Some "kEWepMt9knR6lWJ6A"; issued_at := Some t2020;
     expiration_time := Some t2020; not_before := Some t2022;
     request_id := None; resources := None;
     _require_address := true |}.

(** Valid from 2020 to 2022. *)
Definition valid_2021 : SiweMessage :=
  {| domain := Some "example.com"; address := Some alice;
     statement := None; uri := Some "https://example.com/login";
     chain_id := Some 1%Z; version := Some "1";
     nonce := Some "kEWepMt9knR6lWJ6A"; issued_at := Some t2020;
     expiration_time := Some t2022; not_before := Some t2020;
     request_id := None; resources := None;
     _require_address := true |}.

Definition with_domain (d : message_dict) (v : option string) : message_dict :=
  {| key_domain := v; key_address := key_address d;
     key_statement := key_statement d; key_uri := key_uri d;
     key_chain_id := key_chain_id d; key_version := key_version d;
     key_nonce := key_nonce d; key_issued_at := key_issued_at d;
     key_expiration_time := key_expiration_time d;
     key_not_before := key_not_before d; key_request_id := key_request_id d;
     key_resources := key_resources d |}.

Definition with_statement (d : message_dict) (v : option string) : message_dict :=
  {| key_domain := key_domain d; key_address := key_address d;
     key_statement := v; key_uri := key_uri d;
     key_chain_id := key_chain_id d; key_version := key_version d;
     key_nonce := key_nonce d; key_issued_at := key_issued_at d;
     key_expiration_time := key_expiration_time d;
     key_not_before := key_not_before d; key_request_id := key_request_id d;
     key_resources := key_resources d |}.

Definition with_nonce (d : message_dict) (v : option string) : message_dict :=
  {| key_domain := key_domain d; key_address := key_address d;
     key_statement := key_statement d; key_uri := key_uri d;
     key_chain_id := key_chain_id d; key_version := key_version d;
     key_nonce := v; key_issued_at := key_issued_at d;
     key_expiration_time := key_expiration_time d;
     key_not_before := key_not_before d; key_request_id := key_request_id d;
     key_resources := key_resources d |}.

Definition with_uri (d : message_dict) (v : option string) : message_dict :=
  {| key_domain := key_domain d; key_address := key_address d;
     key_statement := key_statement d; key_uri := v;
     key_chain_id := key_chain_id d; key_version := key_version d;
     key_nonce := key_nonce d; key_issued_at := key_issued_at d;
     key_expiration_time := key_expiration_time d;
     key_not_before := key_not_before d; key_request_id := key_request_id d;
     key_resources := key_resources d |}.

(** A statement of two lines. *)
Definition two_lines : string := "line one" ++ LF ++ "line two".

(** The start of 2021 on a wall clock, with no time zone. *)
Definition naive_2021 : datetime := {| wall := us2021; utcoffset := None |}.

(** A field mapping with every key, the chain as text. *)
Definition full_fields : message_dict :=
  {| key_domain := Some "example.com"; key_address := Some alice;
     key_statement := Some "Sign in to the example.";
     key_uri := Some "https://example.com/login";
     key_chain_id := Some (ChainStr "137"); key_version := Some "1";
     key_nonce := Some "kEWepMt9knR6lWJ6A"; key_issued_at := Some t2021;
     key_expiration_time := Some t2022; key_not_before := Some t2020;
     key_request_id := Some "request-7";
     key_resources := Some ["https://example.com/a"; "https://example.com/b"] |}.


Definition with_chain_id (d : message_dict) (v : option chain_value)
  : message_dict :=
  {| key_domain := key_domain d; key_address := key_address d;
     key_statement := key_statement d; key_uri := key_uri d;
     key_chain_id := v; key_version := key_version d;
     key_nonce := key_nonce d; key_issued_at := key_issued_at d;
     key_expiration_time := key_expiration_time d;
     key_not_before := key_not_before d; key_request_id := key_request_id d;
     key_resources := key_resources d |}.




Definition with_expiration_time (d : message_dict) (v : option string)
  : message_dict :=
  {| key_domain := key_domain d; key_address := key_address d;
     key_statement := key_statement d; key_uri := key_uri d;
     key_chain_id := key_chain_id d; key_version := key_version d;
     key_nonce := key_nonce d; key_issued_at := key_issued_at d;
     key_expiration_time := v;
     key_not_before := key_not_before d; key_request_id := key_request_id d;
     key_resources := key_resources d |}.

End Sample.

(** ** Notions used for the constructor and for the whole of verify *)

(** [isoparse] accepts a time field that is set. *)
Definition parses (ext : Externals) (value : option string) : Prop :=
  forall t, value = Some t -> exists d, isoparse ext t = inr d.

(** The rules the loop of the constructor checks on a field mapping. *)
Definition valid_fields (ext : Externals) (d : message_dict) : Prop :=
  key_domain d <> Some ""
  /\ (forall a, key_address d = Some a ->
      is_checksum_formatted_address ext a = true)
  /\ (forall u, key_uri d = Some u -> rfc3987_parse_URI ext u = true)
  /\ (forall t, key_chain_id d = Some (ChainStr t) ->
      exists z, int_of_str ext t = inr z)
  /\ parses ext (key_issued_at d)
  /\ parses ext (key_expiration_time d)
  /\ parses ext (key_not_before d)
  /\ (forall urls, key_resources d = Some urls ->
      Forall (fun url => rfc3987_parse_URI ext url = true) urls).

(** The integer kept for a [chain_id] entry. *)
Definition coerced (ext : Externals) (value : option chain_value) : option Z :=
  match value with
  | Some (ChainInt z) => Some z
  | Some (ChainStr t) =>
      match int_of_str ext t with
      | inr z => Some z
      | inl _ => None
      end
  | None => None
  end.

(** The message that holds the entries of a field mapping as they are, the
    chain as an integer. *)
Definition stored (ext : Externals) (d : message_dict) (require_address : bool)
  : SiweMessage :=
  {| domain := key_domain d; address := key_address d;
     statement := key_statement d; uri := key_uri d;
     chain_id := coerced ext (key_chain_id d); version := key_version d;
     nonce := key_nonce d; issued_at := key_issued_at d;
     expiration_time := key_expiration_time d;
     not_before := key_not_before d; request_id := key_request_id d;
     resources := key_resources d; _require_address := require_address |}.

(** A field that is false for [if field:] read as an absent one. *)
Definition blank_as_absent (value : option string) : option string :=
  if truthy value then value else None.

(** The message with every field that [prepare_message] tests for truth
    replaced by what the test makes of it: an empty string or list by [None],
    a chain that is unset or zero by 1. *)
Definition as_rendered (m : SiweMessage) : SiweMessage :=
  {| domain := domain m; address := blank_as_absent (address m);
     statement := blank_as_absent (statement m); uri := uri m;
     chain_id := Some (int_or (chain_id m) 1); version := version m;
     nonce := nonce m; issued_at := issued_at m;
     expiration_time := blank_as_absent (expiration_time m);
     not_before := blank_as_absent (not_before m);
     request_id := blank_as_absent (request_id m);
     resources := if truthy_list (resources m) then resources m else None;
     _require_address := _require_address m |}.

(** The events [prepare_message] adds to the trace of a message. *)
Definition prepare_events (m : SiweMessage) : list event :=
  app (if is_none (nonce m) then repeat EvRandom 11 else [])
    (if is_none (issued_at m) then [EvClockLocal] else []).

(** An expected value, when one is given, is the value of the field. *)
Definition as_expected (field expected : option string) : Prop :=
  forall e, expected = Some e -> field = Some e.

(** [t] is the entry of one of the three time fields of the mapping. *)
Definition time_entry (d : message_dict) (t : string) : Prop :=
  key_issued_at d = Some t \/ key_expiration_time d = Some t
  \/ key_not_before d = Some t.

(** What the constructor raises on a field mapping: a [ValueError], or what
    [isoparse] raised on one of the three times. *)
Definition construction_error (ext : Externals) (d : message_dict) (e : exn)
  : Prop :=
  (exists msg, e = ValueError msg)
  \/ exists t x,
       time_entry d t /\ isoparse ext t = inl x /\ e = raised_by_isoparse x.

(** The position of the first [c] in [s] (the length of [s] when there is
    none). *)
Fixpoint index_of (c : ascii) (s : string) : nat :=
  match s with
  | EmptyString => 0
  | String c' s' => if Ascii.eqb c c' then 0 else S (index_of c s')
  end.

(** An environment whose draws spell [target] in the alphabet. *)
Definition spelling (target : string) : World :=
  {| entropy := fun k => index_of (nth k (chars target) zero) alphanumerics;
     draws := 0; clock := fun _ => 0%Z; reads := 0; trace := [] |}.


(** One of the two times has a time zone and the other has none. *)
Definition incomparable (a b : datetime) : Prop :=
  (utcoffset a = None /\ utcoffset b <> None)
  \/ (utcoffset a <> None /\ utcoffset b = None).

(** * Proofs *)

(** ** The sample messages, run *)

Example draft_text :
  prepare_message Sample.ext {| self := Sample.draft; world := Sample.w0 |}
  = (Return
       "example.com wants you to sign in with your Ethereum account:
0x5B38Da6a701c568545dCfcB03FcB875f56beddC4

Sign in to the example.

URI: https://example.com/login
Version: 1
Chain ID: 137
Nonce: abcdefghijk
Issued At: 2021-01-01T00:00:00+00:00
Expiration Time: 2022-01-01T00:00:00Z
Resources:
- https://example.com/a
- https://example.com/b",
     {| self :=
          set_issued_at (Some "2021-01-01T00:00:00+00:00")
            (set_nonce (Some "abcdefghijk") Sample.draft);
        world :=
          {| entropy := fun k => k; draws := 11;
             clock := fun _ => Sample.us2021; reads := 1;
             trace := (repeat EvRandom 11 ++ [EvClockLocal])%list |} |}).
Proof. vm_compute. reflexivity. Qed.

Example login_text :
  fst (prepare_message Sample.ext {| self := Sample.login; world := Sample.w0 |})
  = Return
      "example.com wants you to sign in with your Ethereum account:
0x5B38Da6a701c568545dCfcB03FcB875f56beddC4


URI: https://example.com/login
Version: 1
Chain ID: 1
Nonce: kEWepMt9knR6lWJ6A
Issued At: 2021-01-01T00:00:00Z".
Proof. vm_compute. reflexivity. Qed.

Example login_verified :
  verify Sample.ext "0xa11ce" (Some "example.com") (Some "kEWepMt9knR6lWJ6A")
    None None {| self := Sample.login; world := Sample.w0 |}
  = (Return Sample.alice,
     {| self := Sample.login;
        world :=
          {| entropy := fun k => k; draws := 0;
             clock := fun _ => Sample.us2021; reads := 1;
             trace := [EvClockUTC; EvRecover "0xa11ce"] |} |}).
Proof. vm_compute. reflexivity. Qed.

Example login_other_signer :
  fst (verify Sample.ext "0xb0b" None None None None
         {| self := Sample.login; world := Sample.w0 |})
  = Raise InvalidSignature.
Proof. vm_compute. reflexivity. Qed.

Example login_other_nonce :
  verify Sample.ext "0xa11ce" None (Some "anothernonce") None None
    {| self := Sample.login; world := Sample.w0 |}
  = (Raise NonceMismatch, {| self := Sample.login; world := Sample.w0 |}).
Proof. vm_compute. reflexivity. Qed.

Example valid_in_2021 :
  fst (verify Sample.ext "0xa11ce" None None None None
         {| self := Sample.valid_2021; world := Sample.w0 |})
  = Return Sample.alice.
Proof. vm_compute. reflexivity. Qed.

Example empty_domain_rejected :
  SiweMessage_init Sample.ext
    (MessageDict (Sample.with_domain Sample.only_domain (Some ""))) true true
  = Raise (ValueError "Message `domain` must not be empty").
Proof. reflexivity. Qed.

(** ** Execution lemmas *)

Lemma alphanumerics_length : String.length alphanumerics = 62.
Proof. reflexivity. Qed.

Lemma alphanumerics_get (i : nat) :
  i < 62 ->
  exists c, String.get i alphanumerics = Some c /\ is_alphanumeric c = true.
Proof.
  intros Hi.
  assert (Hall : forallb
            (fun k => match String.get k alphanumerics with
                      | Some c => is_alphanumeric c
                      | None => false
                      end) (seq 0 62) = true) by (vm_compute; reflexivity).
  rewrite forallb_forall in Hall.
  specialize (Hall i).
  assert (Hin : In i (seq 0 62)) by (apply in_seq; lia).
  specialize (Hall Hin).
  destruct (String.get i alphanumerics) as [c|]; [|discriminate].
  exists c. split; [reflexivity | assumption].
Qed.

Lemma drawn_char_alphanumeric (w : World) (k : nat) :
  exists c,
    String.get (Nat.modulo (entropy w (draws w + k)) 62) alphanumerics = Some c
    /\ drawn_char w k = c /\ is_alphanumeric c = true.
Proof.
  destruct (alphanumerics_get (Nat.modulo (entropy w (draws w + k)) 62))
    as [c [Hc Ha]].
  { apply Nat.mod_upper_bound. discriminate. }
  exists c. unfold drawn_char. rewrite alphanumerics_length, Hc. auto.
Qed.

Lemma secrets_choice_alphanumerics (w : World) :
  secrets_choice alphanumerics w = (Return (drawn_char w 0), after_draws 1 w).
Proof.
  destruct (drawn_char_alphanumeric w 0) as [c [Hc [Hd _]]].
  unfold secrets_choice, bind, randbelow, ret, raise, log, after_draws.
  rewrite alphanumerics_length. cbn [Nat.eqb entropy draws clock reads trace].
  rewrite Nat.add_0_r in Hc. rewrite Hc, Hd.
  f_equal. f_equal. lia.
Qed.

Lemma after_draws_succ (n : nat) (w : World) :
  after_draws n (after_draws 1 w) = after_draws (S n) w.
Proof.
  unfold after_draws. cbn [entropy draws clock reads trace].
  f_equal.
  - lia.
  - rewrite <- app_assoc. reflexivity.
Qed.

Lemma drawn_char_shift (w : World) (k : nat) :
  drawn_char (after_draws 1 w) k = drawn_char w (S k).
Proof.
  unfold drawn_char, after_draws. cbn [entropy draws clock reads trace].
  replace (draws w + 1 + k) with (draws w + S k) by lia. reflexivity.
Qed.

Lemma repeat_choice (n : nat) :
  forall w,
    repeat_n n (secrets_choice alphanumerics) w
    = (Return (map (drawn_char w) (seq 0 n)), after_draws n w).
Proof.
  induction n as [|n IH]; intros w.
  - cbn. unfold ret, after_draws. cbn.
    rewrite Nat.add_0_r, app_nil_r. destruct w; reflexivity.
  - cbn [repeat_n]. unfold bind at 1.
    rewrite secrets_choice_alphanumerics.
    unfold bind at 1. rewrite IH. unfold ret.
    rewrite after_draws_succ. f_equal. f_equal.
    cbn [seq map]. f_equal.
    rewrite <- seq_shift, map_map.
    apply map_ext. intros k. apply drawn_char_shift.
Qed.

Lemma generate_nonce_eq (w : World) :
  generate_nonce w = (Return (drawn_nonce w), after_draws 11 w).
Proof.
  unfold generate_nonce, bind. rewrite repeat_choice. reflexivity.
Qed.

Lemma join_chars (cs : list ascii) :
  join "" (map (fun c => String c EmptyString) cs) = string_of_list_ascii cs.
Proof.
  induction cs as [|c [|c' cs] IH]; try reflexivity.
  change (join "" (map (fun c => String c EmptyString) (c :: c' :: cs)))
    with (String c (join "" (map (fun c => String c EmptyString) (c' :: cs)))).
  rewrite IH. reflexivity.
Qed.

Lemma drawn_nonce_chars (w : World) :
  chars (drawn_nonce w) = map (drawn_char w) (seq 0 11).
Proof.
  unfold chars, drawn_nonce. rewrite join_chars.
  apply list_ascii_of_string_of_list_ascii.
Qed.

(** *** Joining lines *)

Lemma str_app_assoc (a b c : string) : (a ++ b) ++ c = a ++ (b ++ c).
Proof. induction a as [|x a IH]; cbn; [reflexivity | now rewrite IH]. Qed.

Lemma str_app_nil_r (a : string) : a ++ "" = a.
Proof. induction a as [|x a IH]; cbn; [reflexivity | now rewrite IH]. Qed.

Lemma join_cons (sep x : string) (ys : list string) :
  ys <> [] -> join sep (x :: ys) = x ++ sep ++ join sep ys.
Proof. destruct ys; [congruence | reflexivity]. Qed.

Lemma join_app (sep : string) (xs ys : list string) :
  xs <> [] -> ys <> [] ->
  join sep (xs ++ ys)%list = join sep xs ++ sep ++ join sep ys.
Proof.
  induction xs as [|x xs IH]; intros Hx Hy; [congruence|].
  destruct xs as [|x' xs].
  - cbn [app]. now rewrite join_cons.
  - change ((x :: x' :: xs) ++ ys)%list with (x :: ((x' :: xs) ++ ys))%list.
    rewrite join_cons by discriminate.
    rewrite IH by (discriminate || assumption).
    rewrite (join_cons sep x (x' :: xs)) by discriminate.
    now rewrite !str_app_assoc.
Qed.

Lemma join_snoc_join (sep : string) (xs ys : list string) :
  ys <> [] ->
  join sep (xs ++ [join sep ys])%list = join sep (xs ++ ys)%list.
Proof.
  intros Hy. destruct xs as [|x xs]; [reflexivity|].
  rewrite !join_app by (discriminate || assumption). reflexivity.
Qed.

Lemma optional_line_truthy (label : string) (value : option string) :
  optional_line label value
  = if truthy value then [label ++ py_str value] else [].
Proof. destruct value as [[|c v]|]; reflexivity. Qed.

Lemma suffix_array_app (m : SiweMessage) :
  suffix_array_of m
  = app (single_lines m)
      (if truthy_list (resources m)
       then [join LF (resources_block (resources m))] else []).
Proof.
  unfold suffix_array_of, single_lines, fixed_lines, append.
  rewrite !optional_line_truthy.
  destruct (truthy (expiration_time m)), (truthy (not_before m)),
    (truthy (request_id m));
    destruct (resources m) as [[|r rs]|]; reflexivity.
Qed.

Lemma final_block_app (m : SiweMessage) :
  final_block m = app (single_lines m) (resources_block (resources m)).
Proof.
  unfold final_block, single_lines, fixed_lines, optional_lines.
  cbn [app]. now rewrite <- !app_assoc.
Qed.

Lemma suffix_array_lines (m : SiweMessage) :
  join LF (suffix_array_of m) = join LF (final_block m).
Proof.
  rewrite suffix_array_app, final_block_app.
  destruct (resources m) as [[|r rs]|]; cbn [truthy_list resources_block];
    try reflexivity.
  apply join_snoc_join. discriminate.
Qed.

Lemma text_of_lines (m : SiweMessage) :
  text_of m = join LF (canonical_lines m).
Proof.
  unfold text_of, canonical_lines, first_block.
  rewrite suffix_array_lines.
  assert (Hf : final_block m <> []) by (unfold final_block; discriminate).
  change (header_line m :: address_line m :: statement_block (statement m))
    with (app [header_line m; address_line m] (statement_block (statement m))).
  rewrite <- app_assoc.
  rewrite join_app; [| discriminate | destruct (statement m) as [[|c v]|]; discriminate].
  destruct (statement m) as [[|c v]|];
    cbn [truthy statement_block py_str app];
    rewrite ?(join_cons LF "") by discriminate;
    rewrite ?(join_cons LF (String c v)) by discriminate;
    rewrite ?(join_cons LF "") by discriminate;
    cbn [join]; rewrite ?str_app_assoc; cbn [String.append];
    rewrite ?str_app_assoc; reflexivity.
Qed.

(** *** prepare_message, executed *)

Lemma prepare_message_text (ext : Externals) (s : State) :
  prepare_message ext s = (Return (text_of (self (defaulted ext s))), defaulted ext s).
Proof.
  destruct s as [m w].
  unfold prepare_message, defaulted, fill_issued_at, fill_nonce.
  unfold bind at 1. unfold get_self at 1. cbn [self world].
  unfold bind at 1.
  destruct (nonce m) as [n|] eqn:Hn.
  - unfold ret at 1. unfold bind at 1, get_self at 1. cbn [self world].
    unfold bind at 1.
    destruct (issued_at m) as [t|] eqn:Ht.
    + unfold ret at 1. unfold bind at 1, get_self at 1. cbn [self world].
      reflexivity.
    + unfold bind at 1, in_world at 1, read_clock, log, set_self, after_read.
      cbn [self world entropy draws clock reads trace].
      unfold bind at 1, get_self at 1. cbn [self world].
      reflexivity.
  - unfold bind at 1, in_world at 1. cbn [self world].
    rewrite generate_nonce_eq. unfold set_self at 1. cbn [self world].
    unfold bind at 1, get_self at 1. cbn [self world].
    unfold bind at 1.
    cbn [issued_at set_nonce].
    destruct (issued_at m) as [t|] eqn:Ht.
    + unfold ret at 1. unfold bind at 1, get_self at 1. cbn [self world].
      reflexivity.
    + unfold bind at 1, in_world at 1, read_clock, log, set_self, after_read.
      cbn [self world entropy draws clock reads trace].
      unfold bind at 1, get_self at 1. cbn [self world].
      reflexivity.
Qed.

Lemma prepare_message_eq (ext : Externals) (s : State) :
  prepare_message ext s
  = (Return (join LF (canonical_lines (self (defaulted ext s)))), defaulted ext s).
Proof. rewrite prepare_message_text, text_of_lines. reflexivity. Qed.

Lemma verify_run (ext : Externals) (signature : string)
  (expected_domain expected_nonce : option string)
  (timestamp : option datetime) (provider : option HTTPProvider) (s : State) :
  verify ext signature expected_domain expected_nonce timestamp provider s
  = (checks_result ext signature expected_domain expected_nonce timestamp s,
     {| self := checked ext s;
        world := checks_world ext signature expected_domain expected_nonce
                   timestamp s |}).
Proof.
  unfold verify. unfold bind at 1. rewrite prepare_message_text.
  unfold checks_result, checks_world, checks, ordered_checks, context_checks,
    time_checks, signature_checks, recovery, instant, signed_text, checked.
  remember (defaulted ext s) as s1 eqn:Hs1. clear Hs1 s.
  destruct s1 as [m w]. cbn [self world].
  remember (text_of m) as text eqn:Htext. clear Htext.
  unfold bind at 1, get_self at 1. cbn [self world is_none app first_failure].
  unfold check_malformed.
  destruct (_require_address m && is_none (address m)) eqn:Hmiss.
  { reflexivity. }
  cbn [append app List.length Nat.ltb Nat.leb first_failure].
  unfold check_domain.
  destruct (mismatch (domain m) expected_domain) eqn:Hdom.
  { reflexivity. }
  unfold check_nonce.
  destruct (mismatch (nonce m) expected_nonce) eqn:Hnonce.
  { reflexivity. }
  cbn [first_failure].
  unfold check_expired, check_not_yet_valid, check_recovery, check_address,
    verification_instant, get_expiration_time, get_not_before, parse_optional,
    now_utc, call_recover_message, try_except, datetime_le.
  unfold bind, ret, raise, of_outcome, in_world, get_self, read_clock, obind,
    after_read, log.
  cbn [self world entropy draws clock reads trace].
  destruct timestamp as [ts|]; cbn [self world entropy draws clock reads trace];
    (destruct (expiration_time m) as [te|];
     [ unfold call_isoparse; destruct (isoparse ext te) as [x|e]; [reflexivity |];
       match goal with
       | |- context [datetime_ge ?a e] =>
           destruct (datetime_ge a e) as [[|]|x]; try reflexivity
       end
     | ]);
    cbn [self world entropy draws clock reads trace first_failure];
    (destruct (not_before m) as [tn|];
     [ unfold call_isoparse; destruct (isoparse ext tn) as [x|nb]; [reflexivity |];
       match goal with
       | |- context [datetime_ge nb ?a] =>
           destruct (datetime_ge nb a) as [[|]|x]; try reflexivity
       end
     | ]);
    cbn [self world entropy draws clock reads trace first_failure];
    (destruct (recover_message ext (encode_defunct ext text) signature) as [x|a];
     [ destruct x; reflexivity
     | destruct (truthy (address m) && differs (address m) a); reflexivity ]).
Qed.

(** *** The object after defaulting *)

Lemma defaulted_same (ext : Externals) (s : State) :
  same_but_defaults (self s) (self (defaulted ext s)).
Proof.
  destruct s as [m w]. unfold defaulted, fill_issued_at, fill_nonce.
  cbn [self world].
  destruct (nonce m); cbn [self world set_nonce issued_at];
    destruct (issued_at m); cbn [self set_issued_at set_nonce];
    repeat split.
Qed.

Lemma defaulted_nonce (ext : Externals) (s : State) :
  nonce (self (defaulted ext s))
  = match nonce (self s) with
    | Some n => Some n
    | None => Some (drawn_nonce (world s))
    end.
Proof.
  destruct s as [m w]. unfold defaulted, fill_issued_at, fill_nonce.
  cbn [self world].
  destruct (nonce m) eqn:Hn; cbn [self world set_nonce issued_at];
    destruct (issued_at m); cbn [self set_issued_at set_nonce nonce];
    auto.
Qed.

Lemma defaulted_issued_at (ext : Externals) (s : State) :
  issued_at (self (defaulted ext s))
  = match issued_at (self s) with
    | Some t => Some t
    | None =>
        Some (local_isoformat ext (clock (world s) (reads (world s))))
    end.
Proof.
  destruct s as [m w]. unfold defaulted, fill_issued_at, fill_nonce.
  cbn [self world].
  destruct (nonce m) eqn:Hn; cbn [self world set_nonce issued_at];
    destruct (issued_at m) eqn:Ht; cbn [self world set_issued_at issued_at];
    auto.
Qed.

(** Once both fields are set, defaulting changes neither the object nor
    the environment. *)
Lemma defaulted_fixed (ext : Externals) (m : SiweMessage) (w : World) :
  nonce m <> None -> issued_at m <> None ->
  defaulted ext {| self := m; world := w |} = {| self := m; world := w |}.
Proof.
  intros Hn Ht. unfold defaulted, fill_issued_at, fill_nonce. cbn [self world].
  destruct (nonce m); [| congruence]. cbn [self world].
  destruct (issued_at m); [| congruence]. reflexivity.
Qed.

Lemma defaulted_filled (ext : Externals) (s : State) :
  nonce (self (defaulted ext s)) <> None
  /\ issued_at (self (defaulted ext s)) <> None.
Proof.
  rewrite defaulted_nonce, defaulted_issued_at.
  destruct (nonce (self s)), (issued_at (self s)); split; discriminate.
Qed.

(** ** The nonce generator *)

Lemma drawn_nonce_get (w : World) (k : nat) :
  k < 11 ->
  String.get k (drawn_nonce w)
  = String.get
      (Nat.modulo (entropy w (draws w + k)) (String.length alphanumerics))
      alphanumerics.
Proof.
  intros Hk.
  destruct (drawn_char_alphanumeric w k) as [c [Hg [Hd _]]].
  rewrite alphanumerics_length, Hg, <- Hd.
  unfold drawn_nonce.
  do 11 (destruct k as [|k]; [reflexivity|]). lia.
Qed.

Lemma index_of_alphanumeric (c : ascii) :
  is_alphanumeric c = true ->
  match
    String.get
      (Nat.modulo (index_of c alphanumerics) (String.length alphanumerics))
      alphanumerics
  with
  | Some c' => c'
  | None => zero
  end = c.
Proof.
  destruct c as [[|] [|] [|] [|] [|] [|] [|] [|]];
    vm_compute; intros H; (discriminate H || reflexivity).
Qed.

Lemma spelling_nonce (target : string) :
  String.length target = 11 ->
  Forall (fun c => is_alphanumeric c = true) (chars target) ->
  drawn_nonce (spelling target) = target.
Proof.
  intros Hl Ha.
  rewrite <- (string_of_list_ascii_of_string target) at 2.
  unfold drawn_nonce. rewrite join_chars. f_equal.
  unfold drawn_char, spelling. cbn [entropy draws Nat.add].
  assert (Hlen : List.length (chars target) = 11).
  { unfold chars. rewrite <- Hl. clear.
    induction target as [|c t IH]; cbn; [reflexivity | now rewrite IH]. }
  fold (chars target).
  destruct (chars target) as [|c0 l]; [discriminate|].
  do 10 (destruct l as [|? l]; [discriminate|]).
  destruct l; [| discriminate].
  cbn [seq map nth].
  repeat match goal with
         | H : Forall _ (_ :: _) |- _ => inversion H; subst; clear H
         end.
  rewrite !index_of_alphanumeric by assumption. reflexivity.
Qed.

(** C9: every token of the nonce generator has exactly 11 characters, each
    of them an upper-case letter, a lower-case letter or a digit; the
    generator returns in every environment, and what it takes from the
    environment is 11 draws of the system randomness source of [secrets]:
    the [k]-th character of the token is the character of the alphabet at
    the position of the [k]-th draw (reduced below the length of the
    alphabet, as [secrets.choice] does).  Every text of 11 alphanumeric
    characters is the token of some draws. *)
Theorem generate_nonce_token (w : World) :
  (exists token w',
     generate_nonce w = (Return token, w')
     /\ String.length token = 11
     /\ Forall (fun c => is_alphanumeric c = true) (chars token)
     /\ draws w' = draws w + 11
     /\ trace w' = (trace w ++ repeat EvRandom 11)%list
     /\ reads w' = reads w
     /\ forall k, k < 11 ->
          String.get k token
          = String.get
              (Nat.modulo (entropy w (draws w + k))
                 (String.length alphanumerics))
              alphanumerics)
  /\ forall target,
       String.length target = 11 ->
       Forall (fun c => is_alphanumeric c = true) (chars target) ->
       exists w0, fst (generate_nonce w0) = Return target.
Proof.
  split.
  - exists (drawn_nonce w), (after_draws 11 w).
    split; [apply generate_nonce_eq|].
    split; [reflexivity|].
    split; [| split; [reflexivity | split; [reflexivity | split;
                [reflexivity | apply drawn_nonce_get]]]].
    rewrite drawn_nonce_chars. apply Forall_forall. intros c Hc.
    apply in_map_iff in Hc. destruct Hc as [k [Hk _]]. subst c.
    destruct (drawn_char_alphanumeric w k) as [c [_ [Hd Ha]]].
    now rewrite Hd.
  - intros target Hl Ha. exists (spelling target).
    rewrite generate_nonce_eq. cbn [fst]. f_equal.
    now apply spelling_nonce.
Qed.

(** ** The canonical text *)

(** C1: for every message, [prepare_message] returns the lines of the fixed
    layout joined by single line breaks: the header line with the domain,
    the address line, the statement block (a blank line and the statement;
    a single blank line and no second line when the statement is omitted),
    one blank line, then the URI, Version, Chain ID, Nonce and Issued At
    lines in that order, then the Expiration Time, Not Before and Request ID
    lines and the Resources block (one [- uri] line per entry), each of them
    only for a field that is set (and not empty).  The fields shown are those
    of the object after the call, which differ from the ones before by the
    defaults of [nonce] and [issued_at] only. *)
Theorem prepare_message_layout (ext : Externals) (s : State) :
  let m := self (snd (prepare_message ext s)) in
  fst (prepare_message ext s)
  = Return
      (join LF
         (header_line m :: address_line m
            :: (statement_block (statement m)
                  ++ "" :: uri_line m :: version_line m :: chain_id_line m
                       :: nonce_line m :: issued_at_line m
                       :: (optional_line "Expiration Time: " (expiration_time m)
                             ++ optional_line "Not Before: " (not_before m)
                             ++ optional_line "Request ID: " (request_id m)
                             ++ resources_block (resources m)))%list))
  /\ same_but_defaults (self s) m
  /\ kept (nonce (self s)) (nonce m)
  /\ kept (issued_at (self s)) (issued_at m)
  /\ statement_block None = [""]
  /\ (forall label, optional_line label None = [])
  /\ resources_block None = [].
Proof.
  cbv zeta. rewrite prepare_message_eq. cbn [fst snd].
  split; [reflexivity|].
  split; [apply defaulted_same|].
  split; [| split; [| repeat split]].
  - intros v Hv. rewrite defaulted_nonce, Hv. reflexivity.
  - intros v Hv. rewrite defaulted_issued_at, Hv. reflexivity.
Qed.

(** *** What each check can raise *)

Lemma check_malformed_raises (m : SiweMessage) (e : exn) :
  check_malformed m = Raise e -> e = MalformedSession ["address"].
Proof.
  unfold check_malformed.
  destruct (_require_address m && is_none (address m)); congruence.
Qed.

Lemma check_domain_raises (m : SiweMessage) (d : option string) (e : exn) :
  check_domain m d = Raise e -> e = DomainMismatch.
Proof. unfold check_domain. destruct (mismatch (domain m) d); congruence. Qed.

Lemma check_nonce_raises (m : SiweMessage) (n : option string) (e : exn) :
  check_nonce m n = Raise e -> e = NonceMismatch.
Proof. unfold check_nonce. destruct (mismatch (nonce m) n); congruence. Qed.

Lemma check_nonce_fails (m : SiweMessage) (n : option string) :
  check_nonce m n = Raise NonceMismatch
  <-> exists x, n = Some x /\ nonce m <> Some x.
Proof.
  unfold check_nonce, mismatch, differs.
  destruct n as [x|].
  - destruct (nonce m) as [y|].
    + destruct (String.eqb_spec y x) as [He|He]; cbn [negb]; split.
      * discriminate.
      * intros [x' [Hx Hd]]. congruence.
      * intros _. exists x. split; congruence.
      * reflexivity.
    + split; [| reflexivity]. intros _. exists x. split; congruence.
  - split; [discriminate | intros [x [Hx _]]; discriminate].
Qed.

Lemma check_expired_raises (ext : Externals) (m : SiweMessage) (vt : datetime)
  (e : exn) :
  check_expired ext m vt = Raise e ->
  e = ExpiredMessage \/ e = TypeError
  \/ (exists msg, e = ValueError msg)
  \/ exists name, e = LibraryError (OtherException name).
Proof.
  unfold check_expired, call_isoparse, obind.
  destruct (expiration_time m) as [t|]; [| discriminate].
  destruct (isoparse ext t) as [[msg|name]|d].
  - intros H. injection H as <-. eauto.
  - intros H. injection H as <-. eauto 6.
  - unfold datetime_ge. destruct (utcoffset vt), (utcoffset d);
      try (intros H; injection H as <-; auto; fail);
      match goal with |- context [if ?b then _ else _] => destruct b end;
      try discriminate; intros H; injection H as <-; auto.
Qed.

Lemma check_not_yet_valid_raises (ext : Externals) (m : SiweMessage)
  (vt : datetime) (e : exn) :
  check_not_yet_valid ext m vt = Raise e ->
  e = NotYetValidMessage \/ e = TypeError
  \/ (exists msg, e = ValueError msg)
  \/ exists name, e = LibraryError (OtherException name).
Proof.
  unfold check_not_yet_valid, call_isoparse, obind, datetime_le.
  destruct (not_before m) as [t|]; [| discriminate].
  destruct (isoparse ext t) as [[msg|name]|d].
  - intros H. injection H as <-. eauto.
  - intros H. injection H as <-. eauto 6.
  - unfold datetime_ge. destruct (utcoffset vt), (utcoffset d);
      try (intros H; injection H as <-; auto; fail);
      match goal with |- context [if ?b then _ else _] => destruct b end;
      try discriminate; intros H; injection H as <-; auto.
Qed.

Lemma check_expired_fails (ext : Externals) (m : SiweMessage) (vt : datetime) :
  check_expired ext m vt = Raise ExpiredMessage
  <-> at_or_after_expiration ext m vt.
Proof.
  unfold check_expired, at_or_after_expiration, call_isoparse, obind.
  destruct (expiration_time m) as [t|].
  - destruct (isoparse ext t) as [x|d] eqn:Hiso.
    + destruct x; cbn [raised_by_isoparse]; (split; [discriminate|]);
        intros [t' [e [Ht [Hp _]]]]; congruence.
    + destruct (datetime_ge vt d) as [[|]|x] eqn:Hge.
      * split; [| reflexivity]. intros _. exists t, d. auto.
      * split; [discriminate|]. intros [t' [e [Ht [Hp Hc]]]]. congruence.
      * split.
        -- intros H. injection H as ->.
           unfold datetime_ge in Hge.
           destruct (utcoffset vt), (utcoffset d); discriminate.
        -- intros [t' [e [Ht [Hp Hc]]]]. congruence.
  - split; [discriminate|]. intros [t' [e [Ht _]]]. discriminate.
Qed.

Lemma check_expired_passes (ext : Externals) (m : SiweMessage) (vt : datetime) :
  check_expired ext m vt = Return tt <-> before_expiration ext m vt.
Proof.
  unfold check_expired, before_expiration, call_isoparse, obind.
  destruct (expiration_time m) as [t|].
  - destruct (isoparse ext t) as [x|d] eqn:Hiso.
    + destruct x; cbn [raised_by_isoparse]; (split; [discriminate|]);
        intros [H | [t' [e [Ht [Hp _]]]]]; congruence.
    + destruct (datetime_ge vt d) as [[|]|x] eqn:Hge.
      * split; [discriminate|].
        intros [H | [t' [e [Ht [Hp Hc]]]]]; congruence.
      * split; [| reflexivity]. intros _. right. exists t, d. auto.
      * split; [discriminate|].
        intros [H | [t' [e [Ht [Hp Hc]]]]]; congruence.
  - split; [| reflexivity]. intros _. left. reflexivity.
Qed.

Lemma check_not_yet_valid_fails (ext : Externals) (m : SiweMessage)
  (vt : datetime) :
  check_not_yet_valid ext m vt = Raise NotYetValidMessage
  <-> at_or_before_not_before ext m vt.
Proof.
  unfold check_not_yet_valid, at_or_before_not_before, call_isoparse, obind.
  destruct (not_before m) as [t|].
  - destruct (isoparse ext t) as [x|d] eqn:Hiso.
    + destruct x; cbn [raised_by_isoparse]; (split; [discriminate|]);
        intros [t' [e [Ht [Hp _]]]]; congruence.
    + destruct (datetime_le vt d) as [[|]|x] eqn:Hle.
      * split; [| reflexivity]. intros _. exists t, d. auto.
      * split; [discriminate|]. intros [t' [e [Ht [Hp Hc]]]]. congruence.
      * split.
        -- intros H. injection H as ->.
           unfold datetime_le, datetime_ge in Hle.
           destruct (utcoffset vt), (utcoffset d); discriminate.
        -- intros [t' [e [Ht [Hp Hc]]]]. congruence.
  - split; [discriminate|]. intros [t' [e [Ht _]]]. discriminate.
Qed.

Lemma check_not_yet_valid_passes (ext : Externals) (m : SiweMessage)
  (vt : datetime) :
  check_not_yet_valid ext m vt = Return tt <-> after_not_before ext m vt.
Proof.
  unfold check_not_yet_valid, after_not_before, call_isoparse, obind.
  destruct (not_before m) as [t|].
  - destruct (isoparse ext t) as [x|d] eqn:Hiso.
    + destruct x; cbn [raised_by_isoparse]; (split; [discriminate|]);
        intros [H | [t' [e [Ht [Hp _]]]]]; congruence.
    + destruct (datetime_le vt d) as [[|]|x] eqn:Hle.
      * split; [discriminate|].
        intros [H | [t' [e [Ht [Hp Hc]]]]]; congruence.
      * split; [| reflexivity]. intros _. right. exists t, d. auto.
      * split; [discriminate|].
        intros [H | [t' [e [Ht [Hp Hc]]]]]; congruence.
  - split; [| reflexivity]. intros _. left. reflexivity.
Qed.

(** The result of the checks as a cascade: the checks before the signature
    decide first, then recovery, then the address. *)
Lemma checks_result_cascade (ext : Externals) (signature : string)
  (d n : option string) (timestamp : option datetime) (s : State) :
  let m := checked ext s in
  let vt := instant ext timestamp s in
  checks_result ext signature d n timestamp s
  = match check_malformed m with
    | Raise e => Raise e
    | Return _ =>
    match check_domain m d with
    | Raise e => Raise e
    | Return _ =>
    match check_nonce m n with
    | Raise e => Raise e
    | Return _ =>
    match check_expired ext m vt with
    | Raise e => Raise e
    | Return _ =>
    match check_not_yet_valid ext m vt with
    | Raise e => Raise e
    | Return _ =>
    signature_stage m (recovery ext signature s)
    end end end end end.
Proof.
  cbv zeta.
  unfold checks_result, checks, ordered_checks, context_checks, time_checks,
    signature_checks.
  cbn [app first_failure].
  destruct (check_malformed (checked ext s)); [| reflexivity].
  destruct (check_domain (checked ext s) d); [| reflexivity].
  destruct (check_nonce (checked ext s) n); [| reflexivity].
  destruct (check_expired ext (checked ext s) (instant ext timestamp s));
    [| reflexivity].
  destruct (check_not_yet_valid ext (checked ext s) (instant ext timestamp s));
    [| reflexivity].
  unfold check_recovery, check_address, signature_stage.
  destruct (recovery ext signature s) as [[| |name]|addr]; try reflexivity.
  destruct (truthy (address (checked ext s))
            && differs (address (checked ext s)) addr); reflexivity.
Qed.

(** Splits the cascade into its cases, with what each failing check raised. *)
Ltac cascade :=
  rewrite checks_result_cascade; cbv zeta;
  repeat match goal with
    | |- context [match check_malformed ?m with _ => _ end] =>
        let H := fresh "Hmal" in
        destruct (check_malformed m) as [[]|?] eqn:H;
        [| apply check_malformed_raises in H; subst]
    | |- context [match check_domain ?m ?d with _ => _ end] =>
        let H := fresh "Hdom" in
        destruct (check_domain m d) as [[]|?] eqn:H;
        [| apply check_domain_raises in H; subst]
    | |- context [match check_nonce ?m ?n with _ => _ end] =>
        let H := fresh "Hnon" in
        destruct (check_nonce m n) as [[]|?] eqn:H;
        [| pose proof H as Hraised; apply check_nonce_raises in Hraised;
           subst]
    | |- context [match check_expired ?x ?m ?t with _ => _ end] =>
        let H := fresh "Hexp" in
        destruct (check_expired x m t) as [[]|?] eqn:H;
        [| pose proof H as Hraised; apply check_expired_raises in Hraised;
           destruct Hraised as [Hraised | [Hraised | [[? Hraised] | [? Hraised]]]];
           subst]
    | |- context [match check_not_yet_valid ?x ?m ?t with _ => _ end] =>
        let H := fresh "Hnyv" in
        destruct (check_not_yet_valid x m t) as [[]|?] eqn:H;
        [| pose proof H as Hraised; apply check_not_yet_valid_raises in Hraised;
           destruct Hraised as [Hraised | [Hraised | [[? Hraised] | [? Hraised]]]];
           subst]
    end.

(** ** Deferred defaults *)

Lemma verify_self (ext : Externals) (signature : string)
  (expected_domain expected_nonce : option string)
  (timestamp : option datetime) (provider : option HTTPProvider) (s : State) :
  self (snd (verify ext signature expected_domain expected_nonce timestamp
               provider s))
  = self (defaulted ext s).
Proof. rewrite verify_run. reflexivity. Qed.

Lemma run_call_self (ext : Externals) (c : method_call) (s : State) :
  self (snd (run_call ext c s)) = self (defaulted ext s).
Proof.
  destruct c; cbn [run_call].
  - rewrite prepare_message_eq. reflexivity.
  - apply verify_self.
Qed.

Lemma later_fixed (ext : Externals) (m m' : SiweMessage) :
  later ext m m' -> nonce m <> None -> issued_at m <> None -> m' = m.
Proof.
  induction 1 as [m | m m' c w Hl IH]; intros Hn Ht; [reflexivity|].
  rewrite run_call_self, defaulted_fixed in IH by assumption.
  cbn [self] in IH. auto.
Qed.

(** C7: the first serialization returns a text and leaves [nonce] and
    [issued_at] set, a field that was set keeping its value; from then on,
    after any calls of [prepare_message] and [verify] in any environment,
    the object is the one the first serialization left (neither field is
    assigned again), and every later serialization returns the text of the
    first one, drawing no nonce and reading no clock. *)
Theorem defaulting_single_assignment (ext : Externals) (s : State) :
  exists text,
    fst (prepare_message ext s) = Return text
    /\ let m1 := self (snd (prepare_message ext s)) in
       nonce m1 <> None /\ issued_at m1 <> None
       /\ kept (nonce (self s)) (nonce m1)
       /\ kept (issued_at (self s)) (issued_at m1)
       /\ forall m2, later ext m1 m2 ->
            m2 = m1
            /\ forall w,
                 prepare_message ext {| self := m2; world := w |}
                 = (Return text, {| self := m2; world := w |}).
Proof.
  exists (text_of (self (defaulted ext s))).
  rewrite prepare_message_text. cbn [fst snd].
  split; [reflexivity|]. cbv zeta.
  destruct (defaulted_filled ext s) as [Hn Ht].
  split; [exact Hn|]. split; [exact Ht|].
  split; [| split].
  - intros v Hv. rewrite defaulted_nonce, Hv. reflexivity.
  - intros v Hv. rewrite defaulted_issued_at, Hv. reflexivity.
  - intros m2 Hl. apply later_fixed in Hl; [| assumption | assumption].
    subst m2. split; [reflexivity|]. intros w.
    rewrite prepare_message_text, defaulted_fixed by assumption.
    reflexivity.
Qed.

(** C10: [verify] produces the canonical text first, so whatever its result
    (a domain mismatch, for one) it leaves the object as [prepare_message]
    leaves it: [nonce] and [issued_at] are set, to a freshly generated nonce
    and to the local time read from the clock where they were unset; no
    other field changes and a set field keeps its value; and the nonce
    check compares the expected nonce with the nonce of that object. *)
Theorem verify_assigns_defaults (ext : Externals) (signature : string)
  (expected_domain expected_nonce : option string)
  (timestamp : option datetime) (provider : option HTTPProvider) (s : State) :
  let run :=
    verify ext signature expected_domain expected_nonce timestamp provider s in
  let m := self (snd run) in
  m = self (snd (prepare_message ext s))
  /\ same_but_defaults (self s) m
  /\ kept (nonce (self s)) (nonce m)
  /\ kept (issued_at (self s)) (issued_at m)
  /\ (nonce (self s) = None -> nonce m = Some (drawn_nonce (world s)))
  /\ (issued_at (self s) = None ->
      issued_at m
      = Some (local_isoformat ext (clock (world s) (reads (world s)))))
  /\ (fst run = Raise NonceMismatch <->
      check_malformed m = Return tt
      /\ check_domain m expected_domain = Return tt
      /\ exists n, expected_nonce = Some n /\ nonce m <> Some n).
Proof.
  cbv zeta. rewrite verify_self, prepare_message_eq. cbn [snd].
  split; [reflexivity|].
  split; [apply defaulted_same|].
  split; [| split; [| split; [| split]]].
  - intros v Hv. rewrite defaulted_nonce, Hv. reflexivity.
  - intros v Hv. rewrite defaulted_issued_at, Hv. reflexivity.
  - intros Hn. rewrite defaulted_nonce, Hn. reflexivity.
  - intros Ht. rewrite defaulted_issued_at, Ht. reflexivity.
  - rewrite verify_run. cbn [fst].
    rewrite <- check_nonce_fails. fold (checked ext s).
    cascade;
      try (split; [discriminate | intros [? [? ?]]; congruence]);
      try (split; [intros _; auto | reflexivity]).
    unfold signature_stage.
    destruct (recovery ext signature s) as [[| |name]|a];
      try (split; [discriminate | intros [? [? ?]]; congruence]).
    destruct (truthy (address (checked ext s))
              && differs (address (checked ext s)) a);
      split; try discriminate; intros [? [? ?]]; congruence.
Qed.

(** ** The order of the checks *)



(** ** The validity window *)

Lemma context_checks_pass (m : SiweMessage) (d n : option string) :
  first_failure (context_checks m d n) = None
  <-> check_malformed m = Return tt /\ check_domain m d = Return tt
      /\ check_nonce m n = Return tt.
Proof.
  unfold context_checks. cbn [first_failure].
  destruct (check_malformed m) as [[]|e1], (check_domain m d) as [[]|e2],
    (check_nonce m n) as [[]|e3];
    split; try discriminate; try (intros [H1 [H2 H3]]; discriminate); auto.
Qed.

(** C5 (amended): [verify] fails with an expired message exactly when the
    checks before it pass (address requirement, expected domain, expected
    nonce), an expiration time is set and the verification instant (the
    timestamp given, or the UTC time read from the clock) is at or after it;
    it fails with not yet valid exactly when those checks pass, the message is
    not expired, a not-before time is set and the instant is at or before it;
    and with an instant strictly before the expiration time and strictly after
    the not-before time it fails with neither and, when the checks before pass,
    goes on to signature recovery. *)
Theorem verify_time_window (ext : Externals) (signature : string)
  (expected_domain expected_nonce : option string)
  (timestamp : option datetime) (provider : option HTTPProvider) (s : State) :
  let run :=
    verify ext signature expected_domain expected_nonce timestamp provider s in
  let m := checked ext s in
  let vt := verification_instant timestamp (world (snd (prepare_message ext s))) in
  let reached :=
    first_failure (context_checks m expected_domain expected_nonce) = None in
  (fst run = Raise ExpiredMessage <->
   reached /\ at_or_after_expiration ext m vt)
  /\ (fst run = Raise NotYetValidMessage <->
      reached /\ before_expiration ext m vt
      /\ at_or_before_not_before ext m vt)
  /\ (before_expiration ext m vt -> after_not_before ext m vt ->
      fst run <> Raise ExpiredMessage
      /\ fst run <> Raise NotYetValidMessage
      /\ (reached ->
          fst run = signature_stage m (recovery ext signature s)
          /\ exists w,
               world (snd run) = log (EvRecover signature) w)).
Proof.
  cbv zeta. rewrite verify_run, prepare_message_eq. cbn [fst snd self world].
  fold (instant ext timestamp s).
  rewrite context_checks_pass.
  rewrite <- check_expired_fails, <- check_expired_passes,
    <- check_not_yet_valid_fails, <- check_not_yet_valid_passes.
  split; [| split].
  - cascade; try (split; [discriminate | intros [[? [? ?]] ?]; congruence]).
    + unfold signature_stage.
      destruct (recovery ext signature s) as [[| |name]|a];
        try (split; [discriminate | intros [[? [? ?]] ?]; congruence]).
      destruct (truthy (address (checked ext s))
                && differs (address (checked ext s)) a);
        split; try discriminate; intros [[? [? ?]] ?]; congruence.
    + split; [intros _; auto | reflexivity].
  - cascade;
      try (split; [discriminate | intros [[? [? ?]] [? ?]]; congruence]).
    + unfold signature_stage.
      destruct (recovery ext signature s) as [[| |name]|a];
        try (split; [discriminate | intros [[? [? ?]] [? ?]]; congruence]).
      destruct (truthy (address (checked ext s))
                && differs (address (checked ext s)) a);
        split; try discriminate; intros [[? [? ?]] [? ?]]; congruence.
    + split; [intros _; auto | reflexivity].
  - intros He Hn.
    rewrite checks_result_cascade. cbv zeta. rewrite He, Hn.
    assert (Hs : forall r,
               signature_stage (checked ext s) r <> Raise ExpiredMessage
               /\ signature_stage (checked ext s) r <> Raise NotYetValidMessage).
    { intros [[| |name]|a]; unfold signature_stage;
        try (split; discriminate).
      destruct (truthy (address (checked ext s))
                && differs (address (checked ext s)) a); split; discriminate. }
    destruct (check_malformed (checked ext s)) as [[]|e1] eqn:H1.
    2:{ apply check_malformed_raises in H1. subst.
        split; [discriminate|]. split; [discriminate|].
        intros [H _]. discriminate. }
    destruct (check_domain (checked ext s) expected_domain) as [[]|e2] eqn:H2.
    2:{ apply check_domain_raises in H2. subst.
        split; [discriminate|]. split; [discriminate|].
        intros [_ [H _]]. discriminate. }
    destruct (check_nonce (checked ext s) expected_nonce) as [[]|e3] eqn:H3.
    2:{ apply check_nonce_raises in H3. subst.
        split; [discriminate|]. split; [discriminate|].
        intros [_ [_ H]]. discriminate. }
    split; [apply Hs|]. split; [apply Hs|]. intros _.
    split; [reflexivity|].
    unfold checks_world, context_checks, time_checks. cbn [first_failure].
    rewrite H1, H2, H3. fold (instant ext timestamp s). rewrite He, Hn.
    eexists. reflexivity.
Qed.

(** C5, as stated, fails on the order of the checks: a message expired in
    2020 and not valid before 2022, verified at the start of 2021, has a
    not-before time that the instant is before, and [verify] fails with an
    expired message; an expired message verified with another expected
    domain fails with a domain mismatch. *)
Lemma time_window_needs_order :
  let s := {| self := Sample.windowed; world := Sample.w0 |} in
  let at_2021 := Some (Sample.utc Sample.us2021) in
  let s' := {| self := Sample.expiring; world := Sample.w0 |} in
  (at_or_before_not_before Sample.ext (checked Sample.ext s)
     (instant Sample.ext at_2021 s)
   /\ fst (verify Sample.ext "0xa11ce" None None at_2021 None s)
      = Raise ExpiredMessage)
  /\ (at_or_after_expiration Sample.ext (checked Sample.ext s')
        (instant Sample.ext at_2021 s')
      /\ fst (verify Sample.ext "0xa11ce" (Some "other.org") None at_2021 None s')
         = Raise DomainMismatch).
Proof.
  cbv zeta. split; split.
  - exists Sample.t2022, (Sample.utc Sample.us2022).
    repeat split; vm_compute; reflexivity.
  - vm_compute. reflexivity.
  - exists Sample.t2020, (Sample.utc Sample.us2020).
    repeat split; vm_compute; reflexivity.
  - vm_compute. reflexivity.
Qed.

(** ** Invalid signatures and contract wallets *)

Lemma address_differs_test (m : SiweMessage) (a : string) :
  truthy (address m) && differs (address m) a = true <-> address_differs m a.
Proof.
  unfold address_differs, differs.
  destruct (address m) as [[|c x]|]; cbn [truthy andb].
  - split; [discriminate|]. intros [y [Hy [Hne _]]]. congruence.
  - destruct (String.eqb_spec (String c x) a) as [He|He]; cbn [negb]; split.
    + discriminate.
    + intros [y [Hy [_ Hd]]]. congruence.
    + intros _. exists (String c x). repeat split; congruence.
    + reflexivity.
  - split; [discriminate|]. intros [y [Hy _]]. discriminate.
Qed.






(** ** The Chain ID line *)

(** C8, as stated, fails for a stored chain id of zero: the message is
    rendered with [Chain ID: 1], not with the stored value. *)
Lemma chain_id_zero_rendered_as_one :
  let s := {| self := Sample.chain_zero; world := Sample.w0 |} in
  chain_id (self s) = Some 0%Z
  /\ fst (prepare_message Sample.ext s)
     = Return (join LF (lines_with_chain_id Sample.chain_zero 1))
  /\ fst (prepare_message Sample.ext s)
     <> Return (join LF (lines_with_chain_id Sample.chain_zero 0)).
Proof.
  cbv zeta. split; [reflexivity|]. split.
  - vm_compute. reflexivity.
  - vm_compute. discriminate.
Qed.

(** C8 (amended): for a message whose [chain_id] is unset, the Chain ID line
    of the text shows 1 and the stored field is still unset after the call;
    for a message whose [chain_id] is set and not zero, the line shows the
    stored value (and the stored value is unchanged). *)
Theorem chain_id_line_shown (ext : Externals) (s : State) (v : Z) :
  shown_chain_id (chain_id (self s)) v ->
  let m := self (snd (prepare_message ext s)) in
  fst (prepare_message ext s) = Return (join LF (lines_with_chain_id m v))
  /\ chain_id m = chain_id (self s).
Proof.
  intros Hv. cbv zeta. rewrite prepare_message_eq. cbn [fst snd].
  destruct (defaulted_same ext s) as [_ [_ [_ [_ [Hc _]]]]].
  split; [| exact Hc].
  unfold canonical_lines, lines_with_chain_id, final_block, chain_id_line.
  rewrite Hc.
  destruct Hv as [[Hn ->] | [Hs Hz]].
  - rewrite Hn. reflexivity.
  - rewrite Hs. unfold int_or.
    destruct (Z.eqb_spec v 0) as [He|He]; [contradiction | reflexivity].
Qed.

Lemma chain_id_line_shown_witness :
  let s := {| self := Sample.draft; world := Sample.w0 |} in
  shown_chain_id (chain_id (self s)) 137
  /\ (let m := self (snd (prepare_message Sample.ext s)) in
      fst (prepare_message Sample.ext s)
      = Return (join LF (lines_with_chain_id m 137))
      /\ chain_id m = chain_id (self s)).
Proof.
  cbv zeta.
  assert (H : shown_chain_id
                (chain_id (self {| self := Sample.draft; world := Sample.w0 |}))
                137).
  { right. split; [reflexivity | discriminate]. }
  split; [exact H|].
  exact (chain_id_line_shown Sample.ext
           {| self := Sample.draft; world := Sample.w0 |} 137 H).
Defined.

(** ** Construction *)

(** C3: the constructor accepts a field mapping whose statement has a line
    break, and one whose nonce has three characters: a message is produced
    with these very values, whatever the libraries answer. *)
Theorem statement_and_nonce_not_validated (ext : Externals)
  (abnf require_address : bool) :
  SiweMessage_init ext
    (MessageDict (Sample.with_statement Sample.only_domain (Some Sample.two_lines)))
    abnf require_address
  = Return
      {| domain := Some "example.com"; address := None;
         statement := Some Sample.two_lines; uri := None; chain_id := None;
         version := None; nonce := None; issued_at := None;
         expiration_time := None; not_before := None; request_id := None;
         resources := None; _require_address := require_address |}
  /\ SiweMessage_init ext
       (MessageDict (Sample.with_nonce Sample.only_domain (Some "abc")))
       abnf require_address
     = Return
         {| domain := Some "example.com"; address := None;
            statement := None; uri := None; chain_id := None;
            version := None; nonce := Some "abc"; issued_at := None;
            expiration_time := None; not_before := None; request_id := None;
            resources := None; _require_address := require_address |}.
Proof. split; reflexivity. Qed.

(** C4, as stated, fails for an absent [uri]: a field mapping with a domain
    and nothing else is accepted. *)
Lemma absent_uri_accepted :
  key_uri Sample.only_domain = None
  /\ SiweMessage_init Sample.ext (MessageDict Sample.only_domain) true true
     = Return
         {| domain := Some "example.com"; address := None;
            statement := None; uri := None; chain_id := None;
            version := None; nonce := None; issued_at := None;
            expiration_time := None; not_before := None; request_id := None;
            resources := None; _require_address := true |}.
Proof. split; reflexivity. Qed.

(** C4 (amended): for every construction input whose field mapping (the
    mapping given, or the one parsed from the text) has the empty string as
    [domain], or a [uri] that is present and not a syntactically valid URI,
    construction fails with a field validation error ([ValueError]) and never
    succeeds. *)
Theorem domain_and_uri_validated (ext : Externals) (message : message_input)
  (abnf require_address : bool) (fields : message_dict) :
  fields_of ext message abnf = Return fields ->
  key_domain fields = Some ""
  \/ (exists u, key_uri fields = Some u /\ rfc3987_parse_URI ext u = false) ->
  exists msg,
    SiweMessage_init ext message abnf require_address = Raise (ValueError msg).
Proof.
  intros Hf Hbad. unfold SiweMessage_init. rewrite Hf. cbn [obind].
  unfold init_fields.
  destruct Hbad as [Hd | [u [Hu Hp]]].
  - rewrite Hd. cbn [init_domain obind]. eauto.
  - unfold init_domain.
    destruct (key_domain fields) as [[|c d]|]; cbn [obind]; eauto;
      unfold init_address;
      (destruct (key_address fields) as [a|];
       [ destruct (is_checksum_formatted_address ext a); cbn [negb obind];
         eauto |]);
      cbn [obind]; rewrite Hu; unfold init_uri; rewrite Hp; cbn [obind]; eauto.
Qed.

Lemma domain_and_uri_validated_witness :
  let fields := Sample.with_uri Sample.only_domain (Some "not a uri") in
  fields_of Sample.ext (MessageDict fields) true = Return fields
  /\ (key_domain fields = Some ""
      \/ (exists u,
            key_uri fields = Some u /\ rfc3987_parse_URI Sample.ext u = false))
  /\ exists msg,
       SiweMessage_init Sample.ext (MessageDict fields) true true
       = Raise (ValueError msg).
Proof.
  cbv zeta.
  assert (Hbad :
            key_domain (Sample.with_uri Sample.only_domain (Some "not a uri"))
            = Some ""
            \/ (exists u,
                  key_uri (Sample.with_uri Sample.only_domain (Some "not a uri"))
                  = Some u
                  /\ rfc3987_parse_URI Sample.ext u = false)).
  { right. exists "not a uri". split; reflexivity. }
  split; [reflexivity|]. split; [exact Hbad|].
  exact (domain_and_uri_validated Sample.ext
           (MessageDict (Sample.with_uri Sample.only_domain (Some "not a uri")))
           true true _ eq_refl Hbad).
Defined.

(** ** The constructor, key by key *)

Lemma init_domain_ok (v v' : option string) :
  init_domain v = Return v' <-> v <> Some "" /\ v' = v.
Proof.
  unfold init_domain. destruct v as [[|c x]|]; split;
    try discriminate; try (intros [H _]; congruence);
    try (intros H; injection H as <-; split; [discriminate | reflexivity]);
    intros [_ ->]; reflexivity.
Qed.

Lemma init_address_ok (ext : Externals) (v v' : option string) :
  init_address ext v = Return v'
  <-> (forall a, v = Some a -> is_checksum_formatted_address ext a = true)
      /\ v' = v.
Proof.
  unfold init_address. destruct v as [a|].
  - destruct (is_checksum_formatted_address ext a) eqn:Ha; cbn [negb]; split.
    + intros H. injection H as <-. split; [| reflexivity].
      intros a' Ha'. injection Ha' as <-. exact Ha.
    + intros [_ ->]. reflexivity.
    + discriminate.
    + intros [H _]. specialize (H a eq_refl). congruence.
  - split.
    + intros H. injection H as <-. split; [discriminate | reflexivity].
    + intros [_ ->]. reflexivity.
Qed.

Lemma init_uri_ok (ext : Externals) (v v' : option string) :
  init_uri ext v = Return v'
  <-> (forall u, v = Some u -> rfc3987_parse_URI ext u = true) /\ v' = v.
Proof.
  unfold init_uri. destruct v as [u|].
  - destruct (rfc3987_parse_URI ext u) eqn:Hu; split.
    + intros H. injection H as <-. split; [| reflexivity].
      intros u' Hu'. injection Hu' as <-. exact Hu.
    + intros [_ ->]. reflexivity.
    + discriminate.
    + intros [H _]. specialize (H u eq_refl). congruence.
  - split.
    + intros H. injection H as <-. split; [discriminate | reflexivity].
    + intros [_ ->]. reflexivity.
Qed.

Lemma init_chain_id_ok (ext : Externals) (v : option chain_value)
  (z : option Z) :
  init_chain_id ext v = Return z
  <-> (forall t, v = Some (ChainStr t) -> exists n, int_of_str ext t = inr n)
      /\ z = coerced ext v.
Proof.
  unfold init_chain_id, coerced. destruct v as [[n|t]|].
  - split.
    + intros H. injection H as <-. split; [discriminate | reflexivity].
    + intros [_ ->]. reflexivity.
  - destruct (int_of_str ext t) as [msg|n] eqn:Ht; split.
    + discriminate.
    + intros [H _]. destruct (H t eq_refl) as [n Hn]. congruence.
    + intros H. injection H as <-. split; [| reflexivity].
      intros t' Ht'. injection Ht' as <-. eauto.
    + intros [_ ->]. reflexivity.
  - split.
    + intros H. injection H as <-. split; [discriminate | reflexivity].
    + intros [_ ->]. reflexivity.
Qed.

Lemma init_datetime_ok (ext : Externals) (v v' : option string) :
  init_datetime ext v = Return v' <-> parses ext v /\ v' = v.
Proof.
  unfold init_datetime, parses. destruct v as [t|].
  - destruct (isoparse ext t) as [msg|d] eqn:Ht; split.
    + discriminate.
    + intros [H _]. destruct (H t eq_refl) as [d Hd]. congruence.
    + intros H. injection H as <-. split; [| reflexivity].
      intros t' Ht'. injection Ht' as <-. eauto.
    + intros [_ ->]. reflexivity.
  - split.
    + intros H. injection H as <-. split; [discriminate | reflexivity].
    + intros [_ ->]. reflexivity.
Qed.

Lemma check_resources_ok (ext : Externals) (urls : list string) :
  check_resources ext urls = Return tt
  <-> Forall (fun url => rfc3987_parse_URI ext url = true) urls.
Proof.
  induction urls as [|url rest IH]; cbn [check_resources].
  - split; [constructor | reflexivity].
  - destruct (rfc3987_parse_URI ext url) eqn:Hu; split.
    + intros H. constructor; [exact Hu | now apply IH].
    + intros H. apply IH. now inversion H.
    + discriminate.
    + intros H. inversion H. congruence.
Qed.

Lemma init_resources_ok (ext : Externals) (v v' : option (list string)) :
  init_resources ext v = Return v'
  <-> (forall urls, v = Some urls ->
       Forall (fun url => rfc3987_parse_URI ext url = true) urls)
      /\ v' = v.
Proof.
  unfold init_resources. destruct v as [urls|].
  - destruct (check_resources ext urls) as [[]|e] eqn:Hc; split.
    + intros H. injection H as <-. split; [| reflexivity].
      intros urls' Hu. injection Hu as <-. now apply check_resources_ok.
    + intros [_ ->]. reflexivity.
    + discriminate.
    + intros [H _]. specialize (H urls eq_refl).
      apply check_resources_ok in H. congruence.
  - split.
    + intros H. injection H as <-. split; [discriminate | reflexivity].
    + intros [_ ->]. reflexivity.
Qed.

Lemma check_resources_raises (ext : Externals) (urls : list string) (e : exn) :
  check_resources ext urls = Raise e -> exists msg, e = ValueError msg.
Proof.
  induction urls as [|url rest IH]; cbn [check_resources]; [discriminate|].
  destruct (rfc3987_parse_URI ext url); [exact IH|].
  intros H. injection H as <-. eauto.
Qed.

Lemma init_fields_spec (ext : Externals) (d : message_dict)
  (require_address : bool) (m : SiweMessage) :
  init_fields ext d require_address = Return m
  <-> valid_fields ext d /\ m = stored ext d require_address.
Proof.
  unfold init_fields, valid_fields, stored. split.
  - intros H.
    destruct (init_domain (key_domain d)) as [v1|] eqn:H1;
      cbn [obind] in H; [| discriminate].
    destruct (init_address ext (key_address d)) as [v2|] eqn:H2;
      cbn [obind] in H; [| discriminate].
    destruct (init_uri ext (key_uri d)) as [v3|] eqn:H3;
      cbn [obind] in H; [| discriminate].
    destruct (init_chain_id ext (key_chain_id d)) as [v4|] eqn:H4;
      cbn [obind] in H; [| discriminate].
    destruct (init_datetime ext (key_issued_at d)) as [v5|] eqn:H5;
      cbn [obind] in H; [| discriminate].
    destruct (init_datetime ext (key_expiration_time d)) as [v6|] eqn:H6;
      cbn [obind] in H; [| discriminate].
    destruct (init_datetime ext (key_not_before d)) as [v7|] eqn:H7;
      cbn [obind] in H; [| discriminate].
    destruct (init_resources ext (key_resources d)) as [v8|] eqn:H8;
      cbn [obind] in H; [| discriminate].
    injection H as <-.
    apply init_domain_ok in H1. apply init_address_ok in H2.
    apply init_uri_ok in H3. apply init_chain_id_ok in H4.
    apply init_datetime_ok in H5. apply init_datetime_ok in H6.
    apply init_datetime_ok in H7. apply init_resources_ok in H8.
    destruct H1 as [? ->], H2 as [? ->], H3 as [? ->], H4 as [? ->],
      H5 as [? ->], H6 as [? ->], H7 as [? ->], H8 as [? ->].
    repeat split; assumption.
  - intros [[V1 [V2 [V3 [V4 [V5 [V6 [V7 V8]]]]]]] ->].
    rewrite (proj2 (init_domain_ok _ _) (conj V1 eq_refl)). cbn [obind].
    rewrite (proj2 (init_address_ok ext _ _) (conj V2 eq_refl)). cbn [obind].
    rewrite (proj2 (init_uri_ok ext _ _) (conj V3 eq_refl)). cbn [obind].
    rewrite (proj2 (init_chain_id_ok ext _ _) (conj V4 eq_refl)). cbn [obind].
    rewrite (proj2 (init_datetime_ok ext _ _) (conj V5 eq_refl)). cbn [obind].
    rewrite (proj2 (init_datetime_ok ext _ _) (conj V6 eq_refl)). cbn [obind].
    rewrite (proj2 (init_datetime_ok ext _ _) (conj V7 eq_refl)). cbn [obind].
    rewrite (proj2 (init_resources_ok ext _ _) (conj V8 eq_refl)). cbn [obind].
    reflexivity.
Qed.

Lemma init_datetime_raises (ext : Externals) (v : option string) (e : exn) :
  init_datetime ext v = Raise e ->
  exists t x, v = Some t /\ isoparse ext t = inl x /\ e = raised_by_isoparse x.
Proof.
  unfold init_datetime. destruct v as [t|]; [| discriminate].
  destruct (isoparse ext t) as [x|d] eqn:Hp; [| discriminate].
  intros H. injection H as <-. exists t, x. auto.
Qed.

Lemma init_fields_raises (ext : Externals) (d : message_dict)
  (require_address : bool) (e : exn) :
  init_fields ext d require_address = Raise e -> construction_error ext d e.
Proof.
  unfold init_fields, construction_error, time_entry. intros H.
  destruct (init_domain (key_domain d)) as [v1|e1] eqn:H1; cbn [obind] in H.
  2:{ injection H as <-. unfold init_domain in H1.
      destruct (key_domain d) as [[|c x]|]; try discriminate.
      injection H1 as <-. eauto. }
  destruct (init_address ext (key_address d)) as [v2|e2] eqn:H2;
    cbn [obind] in H.
  2:{ injection H as <-. unfold init_address in H2.
      destruct (key_address d) as [a|]; [| discriminate].
      destruct (negb (is_checksum_formatted_address ext a)); [| discriminate].
      injection H2 as <-. eauto. }
  destruct (init_uri ext (key_uri d)) as [v3|e3] eqn:H3; cbn [obind] in H.
  2:{ injection H as <-. unfold init_uri in H3.
      destruct (key_uri d) as [u|]; [| discriminate].
      destruct (rfc3987_parse_URI ext u); [discriminate|].
      injection H3 as <-. eauto. }
  destruct (init_chain_id ext (key_chain_id d)) as [v4|e4] eqn:H4;
    cbn [obind] in H.
  2:{ injection H as <-. unfold init_chain_id in H4.
      destruct (key_chain_id d) as [[n|t]|]; try discriminate.
      destruct (int_of_str ext t); [| discriminate].
      injection H4 as <-. eauto. }
  destruct (init_datetime ext (key_issued_at d)) as [v5|e5] eqn:H5;
    cbn [obind] in H.
  2:{ injection H as <-. apply init_datetime_raises in H5.
      destruct H5 as [t [x [Hk [Hp ->]]]]. right. exists t, x. auto. }
  destruct (init_datetime ext (key_expiration_time d)) as [v6|e6] eqn:H6;
    cbn [obind] in H.
  2:{ injection H as <-. apply init_datetime_raises in H6.
      destruct H6 as [t [x [Hk [Hp ->]]]]. right. exists t, x. auto. }
  destruct (init_datetime ext (key_not_before d)) as [v7|e7] eqn:H7;
    cbn [obind] in H.
  2:{ injection H as <-. apply init_datetime_raises in H7.
      destruct H7 as [t [x [Hk [Hp ->]]]]. right. exists t, x. auto. }
  destruct (init_resources ext (key_resources d)) as [v8|e8] eqn:H8;
    cbn [obind] in H; [discriminate|].
  injection H as <-. unfold init_resources in H8.
  destruct (key_resources d) as [urls|]; [| discriminate].
  destruct (check_resources ext urls) as [[]|e'] eqn:Hc; [discriminate|].
  injection H8 as <-. left. eapply check_resources_raises, Hc.
Qed.

Lemma init_returns (ext : Externals) (message : message_input)
  (abnf require_address : bool) (m : SiweMessage) :
  SiweMessage_init ext message abnf require_address = Return m
  <-> exists fields,
        fields_of ext message abnf = Return fields
        /\ valid_fields ext fields
        /\ m = stored ext fields require_address.
Proof.
  unfold SiweMessage_init. split.
  - destruct (fields_of ext message abnf) as [d|e]; cbn [obind];
      [| discriminate].
    intros H. apply init_fields_spec in H. exists d. tauto.
  - intros [d [Hd [Hv ->]]]. rewrite Hd. cbn [obind].
    apply init_fields_spec. auto.
Qed.

(** X1: construction succeeds exactly when the field mapping (the one given,
    or the one the chosen parser returns for a text) passes every rule of the
    loop: domain not the empty string, address in checksum form, uri and every
    resource a URI, a chain given as text an integer, the three times accepted
    by [isoparse]; the message then holds the entries as given, the chain as
    an integer, and the [require_address] flag of the call. *)
Theorem construction_succeeds_iff_valid (ext : Externals)
  (message : message_input) (abnf require_address : bool) (m : SiweMessage) :
  SiweMessage_init ext message abnf require_address = Return m
  <-> exists fields,
        fields_of ext message abnf = Return fields
        /\ valid_fields ext fields
        /\ m = stored ext fields require_address.
Proof. apply init_returns. Qed.

(** X2: built from a field mapping, the constructor either returns the
    message that holds the entries of the mapping, or raises a [ValueError],
    or lets through what [isoparse] raised on one of the three times (which
    need not be a [ValueError]); it raises nothing else. *)
Theorem construction_from_mapping_outcomes (ext : Externals)
  (fields : message_dict) (abnf require_address : bool) :
  SiweMessage_init ext (MessageDict fields) abnf require_address
  = Return (stored ext fields require_address)
  \/ exists e,
       SiweMessage_init ext (MessageDict fields) abnf require_address = Raise e
       /\ ((exists msg, e = ValueError msg)
           \/ exists t x,
                (key_issued_at fields = Some t
                 \/ key_expiration_time fields = Some t
                 \/ key_not_before fields = Some t)
                /\ isoparse ext t = inl x /\ e = raised_by_isoparse x).
Proof.
  unfold SiweMessage_init. cbn [fields_of obind].
  destruct (init_fields ext fields require_address) as [m|e] eqn:H.
  - left. apply init_fields_spec in H. destruct H as [_ ->]. reflexivity.
  - right. exists e. split; [reflexivity|].
    apply init_fields_raises in H. exact H.
Qed.

Example time_out_of_range :
  SiweMessage_init Sample.ext
    (MessageDict
       (Sample.with_expiration_time Sample.full_fields
          (Some "9999-12-31T24:00:00")))
    true true
  = Raise (LibraryError (OtherException "OverflowError")).
Proof. vm_compute. reflexivity. Qed.



Example full_fields_constructed :
  SiweMessage_init Sample.ext (MessageDict Sample.full_fields) true false
  = Return
      {| domain := Some "example.com"; address := Some Sample.alice;
         statement := Some "Sign in to the example.";
         uri := Some "https://example.com/login";
         chain_id := Some 137%Z; version := Some "1";
         nonce := Some "kEWepMt9knR6lWJ6A"; issued_at := Some Sample.t2021;
         expiration_time := Some Sample.t2022;
         not_before := Some Sample.t2020;
         request_id := Some "request-7";
         resources := Some ["https://example.com/a"; "https://example.com/b"];
         _require_address := false |}.
Proof. vm_compute. reflexivity. Qed.

(** X4: a present field that breaks its rule is not dropped: a chain given
    as text that is not an integer, a time on which [isoparse] raises, or a
    resource that is not a URI makes construction from the mapping fail: it
    raises a [ValueError] or what [isoparse] raised on one of the three
    times, and returns no message. *)
Theorem malformed_field_rejected (ext : Externals) (fields : message_dict)
  (abnf require_address : bool) :
  (exists t msg,
     key_chain_id fields = Some (ChainStr t) /\ int_of_str ext t = inl msg)
  \/ (exists t x,
        (key_issued_at fields = Some t \/ key_expiration_time fields = Some t
         \/ key_not_before fields = Some t)
        /\ isoparse ext t = inl x)
  \/ (exists urls url,
        key_resources fields = Some urls /\ In url urls
        /\ rfc3987_parse_URI ext url = false) ->
  exists e,
    SiweMessage_init ext (MessageDict fields) abnf require_address = Raise e
    /\ ((exists msg, e = ValueError msg)
        \/ exists t x,
             (key_issued_at fields = Some t
              \/ key_expiration_time fields = Some t
              \/ key_not_before fields = Some t)
             /\ isoparse ext t = inl x /\ e = raised_by_isoparse x).
Proof.
  intros Hbad. unfold SiweMessage_init. cbn [fields_of obind].
  destruct (init_fields ext fields require_address) as [m|e] eqn:H.
  - exfalso. apply init_fields_spec in H.
    destruct H as [[_ [_ [_ [V4 [V5 [V6 [V7 V8]]]]]]] _].
    destruct Hbad as [[t [msg [Hk Hp]]] | [[t [msg [Hk Hp]]] | Hr]].
    + destruct (V4 t Hk) as [z Hz]. congruence.
    + destruct Hk as [Hk | [Hk | Hk]];
        [destruct (V5 t Hk) as [x Hx] | destruct (V6 t Hk) as [x Hx]
        | destruct (V7 t Hk) as [x Hx]]; congruence.
    + destruct Hr as [urls [url [Hk [Hin Hp]]]].
      specialize (V8 urls Hk). rewrite Forall_forall in V8.
      specialize (V8 url Hin). congruence.
  - exists e. split; [reflexivity|]. apply init_fields_raises in H. exact H.
Qed.

Lemma malformed_field_rejected_witness :
  let fields :=
    Sample.with_expiration_time Sample.full_fields
      (Some "9999-12-31T24:00:00") in
  exists e,
    SiweMessage_init Sample.ext (MessageDict fields) true true = Raise e
    /\ ((exists msg, e = ValueError msg)
        \/ exists t x,
             (key_issued_at fields = Some t
              \/ key_expiration_time fields = Some t
              \/ key_not_before fields = Some t)
             /\ isoparse Sample.ext t = inl x /\ e = raised_by_isoparse x).
Proof.
  cbv zeta.
  apply (malformed_field_rejected Sample.ext
           (Sample.with_expiration_time Sample.full_fields
              (Some "9999-12-31T24:00:00"))
           true true).
  right. left.
  exists "9999-12-31T24:00:00", (IsoOtherException "OverflowError").
  split; [right; left; reflexivity | reflexivity].
Defined.

(** ** What verify raises *)







(** ** The defaults of prepare_message *)

Lemma drawn_nonce_well_formed (w : World) :
  String.length (drawn_nonce w) = 11
  /\ Forall (fun c => is_alphanumeric c = true) (chars (drawn_nonce w)).
Proof.
  split; [reflexivity|].
  rewrite drawn_nonce_chars. apply Forall_forall. intros c Hc.
  apply in_map_iff in Hc. destruct Hc as [k [Hk _]]. subst c.
  destruct (drawn_char_alphanumeric w k) as [c [_ [Hd Ha]]].
  now rewrite Hd.
Qed.

(** X6: serializing a message whose nonce is unset stores the token that
    [generate_nonce] returns in that environment: 11 characters, each a
    letter or a digit, so the default satisfies the rule for a nonce (at
    least 8 alphanumeric characters), and the Nonce line shows it. *)
Theorem defaulted_nonce_well_formed (ext : Externals) (s : State) :
  nonce (self s) = None ->
  let m := self (snd (prepare_message ext s)) in
  exists token,
    fst (generate_nonce (world s)) = Return token
    /\ nonce m = Some token
    /\ nonce_line m = "Nonce: " ++ token
    /\ String.length token = 11
    /\ 8 <= String.length token
    /\ Forall (fun c => is_alphanumeric c = true) (chars token).
Proof.
  intros Hn. cbv zeta. rewrite prepare_message_eq. cbn [snd].
  exists (drawn_nonce (world s)).
  rewrite generate_nonce_eq. cbn [fst].
  unfold nonce_line. rewrite defaulted_nonce, Hn. cbn [py_str].
  destruct (drawn_nonce_well_formed (world s)) as [Hl Ha].
  repeat split; try assumption. rewrite Hl. lia.
Qed.

Lemma defaulted_nonce_well_formed_witness :
  let s := {| self := Sample.draft; world := Sample.w0 |} in
  let m := self (snd (prepare_message Sample.ext s)) in
  exists token,
    fst (generate_nonce (world s)) = Return token
    /\ nonce m = Some token
    /\ nonce_line m = "Nonce: " ++ token
    /\ String.length token = 11
    /\ 8 <= String.length token
    /\ Forall (fun c => is_alphanumeric c = true) (chars token).
Proof.
  cbv zeta.
  exact (defaulted_nonce_well_formed Sample.ext
           {| self := Sample.draft; world := Sample.w0 |} eq_refl).
Defined.

(** X7: what [prepare_message] takes from the environment: 11 draws of the
    randomness source when the nonce is unset and none otherwise, one reading
    of the local clock when the time of issue is unset and none otherwise;
    it never reads the UTC clock and never calls signature recovery. *)
Theorem prepare_message_effects (ext : Externals) (s : State) :
  let w' := world (snd (prepare_message ext s)) in
  trace w' = (trace (world s) ++ prepare_events (self s))%list
  /\ draws w' = draws (world s) + (if is_none (nonce (self s)) then 11 else 0)
  /\ reads w' = reads (world s) + (if is_none (issued_at (self s)) then 1 else 0)
  /\ entropy w' = entropy (world s)
  /\ clock w' = clock (world s)
  /\ ~ In EvClockUTC (prepare_events (self s))
  /\ forall signature, ~ In (EvRecover signature) (prepare_events (self s)).
Proof.
  cbv zeta. rewrite prepare_message_eq. cbn [snd].
  destruct s as [m w]. unfold defaulted, fill_issued_at, fill_nonce,
    prepare_events.
  cbn [self world].
  destruct (nonce m); cbn [self world set_nonce issued_at is_none];
    destruct (issued_at m);
    cbn [self world is_none after_draws after_read entropy draws clock reads
           trace app];
    rewrite ?app_nil_r, ?Nat.add_0_r, <- ?app_assoc;
    (repeat split; try lia;
     try (intros H; cbn in H; intuition discriminate);
     try (intros signature H; cbn in H; intuition discriminate)).
Qed.

(** ** Fields that are set and false *)

Lemma as_rendered_defaulted (ext : Externals) (m : SiweMessage) (w : World) :
  self (defaulted ext {| self := as_rendered m; world := w |})
  = as_rendered (self (defaulted ext {| self := m; world := w |})).
Proof.
  unfold defaulted, fill_issued_at, fill_nonce. cbn [self world as_rendered nonce].
  destruct (nonce m); cbn [self world set_nonce issued_at as_rendered];
    destruct (issued_at m); reflexivity.
Qed.

Lemma optional_line_blank (label : string) (v : option string) :
  optional_line label (blank_as_absent v) = optional_line label v.
Proof. destruct v as [[|c x]|]; reflexivity. Qed.

Lemma canonical_lines_as_rendered (m : SiweMessage) :
  canonical_lines (as_rendered m) = canonical_lines m.
Proof.
  unfold canonical_lines, first_block, final_block, optional_lines,
    header_line, address_line, uri_line, version_line, chain_id_line,
    nonce_line, issued_at_line, as_rendered.
  cbn [domain address statement uri chain_id version nonce issued_at
         expiration_time not_before request_id resources].
  rewrite !optional_line_blank.
  replace (str_or (blank_as_absent (address m)) "") with (str_or (address m) "")
    by (destruct (address m) as [[|c x]|]; reflexivity).
  replace (statement_block (blank_as_absent (statement m)))
    with (statement_block (statement m))
    by (destruct (statement m) as [[|c x]|]; reflexivity).
  replace (int_or (Some (int_or (chain_id m) 1)) 1) with (int_or (chain_id m) 1).
  2:{ unfold int_or. destruct (chain_id m) as [z|]; [| reflexivity].
      destruct (Z.eqb_spec z 0) as [He|He]; [reflexivity|].
      destruct (Z.eqb_spec z 0); [contradiction | reflexivity]. }
  replace (resources_block
             (if truthy_list (resources m) then resources m else None))
    with (resources_block (resources m))
    by (destruct (resources m) as [[|r rs]|]; reflexivity).
  reflexivity.
Qed.

(** X8: [prepare_message] tests its optional fields for truth, so the text
    does not tell a field that is set and false from an absent one: an
    address, statement, expiration time, not-before time or request id set
    to the empty string, and an empty list of resources, give the text of the
    message without the field, and a chain that is unset or zero gives the
    text of chain 1. *)
Theorem false_fields_rendered_as_absent (ext : Externals) (m : SiweMessage)
  (w : World) :
  fst (prepare_message ext {| self := m; world := w |})
  = fst (prepare_message ext {| self := as_rendered m; world := w |}).
Proof.
  rewrite !prepare_message_eq. cbn [fst].
  rewrite as_rendered_defaulted, canonical_lines_as_rendered. reflexivity.
Qed.

(** ** The checks of verify on the fields of the message *)

Lemma check_malformed_passes (m : SiweMessage) :
  check_malformed m = Return tt
  <-> (_require_address m = true -> address m <> None).
Proof.
  unfold check_malformed.
  destruct (_require_address m), (address m); cbn [is_none andb]; split;
    try discriminate; try reflexivity; try congruence.
  intros H. exfalso. now apply H.
Qed.


Lemma mismatch_false (field expected : option string) :
  mismatch field expected = false <-> as_expected field expected.
Proof.
  unfold mismatch, differs, as_expected.
  destruct expected as [e|].
  - destruct field as [f|].
    + destruct (String.eqb_spec f e) as [He|He]; cbn [negb]; split.
      * intros _ e' H. congruence.
      * reflexivity.
      * discriminate.
      * intros H. specialize (H e eq_refl). congruence.
    + split; [discriminate|]. intros H. specialize (H e eq_refl). discriminate.
  - split; [| reflexivity]. intros _ e H. discriminate.
Qed.

Lemma check_domain_passes (m : SiweMessage) (d : option string) :
  check_domain m d = Return tt <-> as_expected (domain m) d.
Proof.
  rewrite <- mismatch_false. unfold check_domain.
  destruct (mismatch (domain m) d); split; try discriminate; reflexivity.
Qed.

Lemma check_nonce_passes (m : SiweMessage) (n : option string) :
  check_nonce m n = Return tt <-> as_expected (nonce m) n.
Proof.
  rewrite <- mismatch_false. unfold check_nonce.
  destruct (mismatch (nonce m) n); split; try discriminate; reflexivity.
Qed.

Lemma signature_stage_returns (m : SiweMessage) (r : library_exn + string)
  (a : string) :
  signature_stage m r = Return a
  <-> r = inr a /\ (forall x, address m = Some x -> x <> "" -> x = a).
Proof.
  unfold signature_stage. destruct r as [[| |name]|b].
  - split; [discriminate | intros [H _]; discriminate].
  - split; [discriminate | intros [H _]; discriminate].
  - split; [discriminate | intros [H _]; discriminate].
  - destruct (truthy (address m) && differs (address m) b) eqn:Hd.
    + apply address_differs_test in Hd. destruct Hd as [x [Hx [Hne Hb]]].
      split; [discriminate|]. intros [H Ha]. injection H as ->.
      specialize (Ha x Hx Hne). congruence.
    + split.
      * intros H. injection H as ->. split; [reflexivity|].
        intros x Hx Hne.
        destruct (String.eqb_spec x a) as [He|He]; [exact He|].
        assert (Hdiff : address_differs m a) by (exists x; auto).
        apply address_differs_test in Hdiff. congruence.
      * intros [H _]. injection H as ->. reflexivity.
Qed.

Lemma checks_result_returns (ext : Externals) (signature : string)
  (d n : option string) (timestamp : option datetime) (s : State) (a : string) :
  let m := checked ext s in
  let vt := instant ext timestamp s in
  checks_result ext signature d n timestamp s = Return a
  <-> check_malformed m = Return tt /\ check_domain m d = Return tt
      /\ check_nonce m n = Return tt /\ check_expired ext m vt = Return tt
      /\ check_not_yet_valid ext m vt = Return tt
      /\ signature_stage m (recovery ext signature s) = Return a.
Proof.
  cbv zeta. rewrite checks_result_cascade. cbv zeta.
  destruct (check_malformed (checked ext s)) as [[]|e1];
    [| split; [discriminate | intros [H _]; discriminate]].
  destruct (check_domain (checked ext s) d) as [[]|e2];
    [| split; [discriminate | intros [_ [H _]]; discriminate]].
  destruct (check_nonce (checked ext s) n) as [[]|e3];
    [| split; [discriminate | intros [_ [_ [H _]]]; discriminate]].
  destruct (check_expired ext (checked ext s) (instant ext timestamp s))
    as [[]|e4];
    [| split; [discriminate | intros [_ [_ [_ [H _]]]]; discriminate]].
  destruct (check_not_yet_valid ext (checked ext s) (instant ext timestamp s))
    as [[]|e5];
    [| split; [discriminate | intros [_ [_ [_ [_ [H _]]]]]; discriminate]].
  split; [intros H; auto 10 | intros [_ [_ [_ [_ [_ H]]]]]; exact H].
Qed.




(** ** When verify succeeds *)

(** X11: [verify] returns an address exactly when the address requirement is
    met, the expected domain and nonce (when given) are those of the message,
    the instant is strictly inside the validity window, recovery on the
    envelope of the very text [prepare_message] returns gives that address,
    and the address of the message, when set and not empty, is that address.
    The message is the one after text production, so an unset nonce is
    compared as the generated one. *)
Theorem verify_returns_iff (ext : Externals) (signature : string)
  (expected_domain expected_nonce : option string)
  (timestamp : option datetime) (provider : option HTTPProvider) (s : State)
  (a : string) :
  let m := self (snd (prepare_message ext s)) in
  let vt :=
    verification_instant timestamp (world (snd (prepare_message ext s))) in
  fst (verify ext signature expected_domain expected_nonce timestamp provider s)
  = Return a
  <-> (_require_address m = true -> address m <> None)
      /\ as_expected (domain m) expected_domain
      /\ as_expected (nonce m) expected_nonce
      /\ before_expiration ext m vt
      /\ after_not_before ext m vt
      /\ (exists text,
            fst (prepare_message ext s) = Return text
            /\ recover_message ext (encode_defunct ext text) signature = inr a)
      /\ (forall x, address m = Some x -> x <> "" -> x = a).
Proof.
  cbv zeta. rewrite verify_run. cbn [fst].
  rewrite checks_result_returns. cbv zeta.
  rewrite prepare_message_text. cbn [fst snd].
  fold (checked ext s). fold (instant ext timestamp s).
  rewrite check_malformed_passes, check_domain_passes, check_nonce_passes,
    check_expired_passes, check_not_yet_valid_passes, signature_stage_returns.
  unfold recovery, signed_text.
  split.
  - intros [H1 [H2 [H3 [H4 [H5 [H6 H7]]]]]].
    split; [exact H1|]. split; [exact H2|]. split; [exact H3|].
    split; [exact H4|]. split; [exact H5|]. split; [| exact H7].
    exists (text_of (checked ext s)). split; [reflexivity | exact H6].
  - intros [H1 [H2 [H3 [H4 [H5 [[text [Ht H6]] H7]]]]]].
    injection Ht as <-.
    split; [exact H1|]. split; [exact H2|]. split; [exact H3|].
    split; [exact H4|]. split; [exact H5|]. split; [exact H6 | exact H7].
Qed.

(** ** Times that cannot be compared *)

Lemma incomparable_ge (a b : datetime) :
  incomparable a b -> datetime_ge a b = Raise TypeError.
Proof.
  unfold incomparable, datetime_ge.
  destruct (utcoffset a), (utcoffset b); intros [[H1 H2] | [H1 H2]];
    congruence.
Qed.

Lemma incomparable_le (a b : datetime) :
  incomparable a b -> datetime_le a b = Raise TypeError.
Proof.
  unfold incomparable, datetime_le, datetime_ge.
  destruct (utcoffset a), (utcoffset b); intros [[H1 H2] | [H1 H2]];
    congruence.
Qed.

(** X13: when [verify] reaches the time checks and the instant cannot be
    compared with the expiration time (one of the two has a time zone, the
    other has none), it raises a [TypeError], not a verification error; the
    same holds for the not-before time when the message is not expired. *)
Theorem incomparable_times_raise_type_error (ext : Externals)
  (signature : string) (expected_domain expected_nonce : option string)
  (timestamp : option datetime) (provider : option HTTPProvider) (s : State) :
  let m := self (snd (prepare_message ext s)) in
  let vt :=
    verification_instant timestamp (world (snd (prepare_message ext s))) in
  let run :=
    verify ext signature expected_domain expected_nonce timestamp provider s in
  first_failure (context_checks m expected_domain expected_nonce) = None ->
  (forall t e,
     expiration_time m = Some t -> isoparse ext t = inr e ->
     incomparable vt e -> fst run = Raise TypeError)
  /\ (forall t nb,
        before_expiration ext m vt ->
        not_before m = Some t -> isoparse ext t = inr nb ->
        incomparable vt nb -> fst run = Raise TypeError).
Proof.
  cbv zeta. rewrite verify_run, prepare_message_eq. cbn [fst snd].
  fold (checked ext s). fold (instant ext timestamp s).
  intros Hc. apply context_checks_pass in Hc. destruct Hc as [H1 [H2 H3]].
  rewrite checks_result_cascade. cbv zeta. rewrite H1, H2, H3.
  split.
  - intros t e Ht Hp Hi.
    unfold check_expired, call_isoparse. rewrite Ht, Hp. cbn [obind].
    rewrite (incomparable_ge _ _ Hi). reflexivity.
  - intros t nb He Ht Hp Hi.
    apply check_expired_passes in He. rewrite He.
    unfold check_not_yet_valid, call_isoparse. rewrite Ht, Hp. cbn [obind].
    rewrite (incomparable_le _ _ Hi). reflexivity.
Qed.

Lemma incomparable_times_raise_type_error_witness :
  fst (verify Sample.ext "0xa11ce" None None (Some Sample.naive_2021) None
         {| self := Sample.valid_2021; world := Sample.w0 |})
  = Raise TypeError.
Proof.
  refine (proj1
            (incomparable_times_raise_type_error Sample.ext "0xa11ce" None None
               (Some Sample.naive_2021) None
               {| self := Sample.valid_2021; world := Sample.w0 |} eq_refl)
            Sample.t2022 (Sample.utc Sample.us2022) eq_refl eq_refl _).
  left. split; [reflexivity | discriminate].
Defined.

(** ** Verifying again *)

Lemma checked_again (ext : Externals) (s : State) (w : World) :
  checked ext {| self := checked ext s; world := w |} = checked ext s.
Proof.
  unfold checked at 1. destruct (defaulted_filled ext s) as [Hn Ht].
  rewrite defaulted_fixed by assumption. reflexivity.
Qed.

Lemma checks_result_same (ext : Externals) (signature : string)
  (d n : option string) (t : datetime) (s s' : State) :
  checked ext s' = checked ext s ->
  checks_result ext signature d n (Some t) s'
  = checks_result ext signature d n (Some t) s.
Proof.
  intros H.
  unfold checks_result, checks, recovery, signed_text, instant,
    verification_instant.
  rewrite H. reflexivity.
Qed.

(** X14: with a timestamp given, verifying again with the same arguments
    gives the same result, whatever the first call returned or raised, and
    leaves the object as the first call left it. *)
Theorem verify_repeatable (ext : Externals) (signature : string)
  (expected_domain expected_nonce : option string) (t : datetime)
  (provider : option HTTPProvider) (s : State) :
  let run :=
    verify ext signature expected_domain expected_nonce (Some t) provider s in
  let again :=
    verify ext signature expected_domain expected_nonce (Some t) provider
      (snd run) in
  fst again = fst run /\ self (snd again) = self (snd run).
Proof.
  cbv zeta.
  rewrite (verify_run ext signature expected_domain expected_nonce (Some t)
             provider s).
  cbn [fst snd]. rewrite verify_run. cbn [fst snd self].
  split.
  - apply checks_result_same. apply checked_again.
  - apply checked_again.
Qed.

(** ** The times of a constructed message *)

Lemma parse_optional_run (ext : Externals) (v : option string) (s : State) :
  parse_optional ext v s
  = (match v with
     | Some t =>
         match isoparse ext t with
         | inr d => Return (Some d)
         | inl x => Raise (raised_by_isoparse x)
         end
     | None => Return None
     end, s).
Proof.
  unfold parse_optional, bind, of_outcome, call_isoparse, ret.
  destruct v as [t|]; [| reflexivity].
  destruct (isoparse ext t); reflexivity.
Qed.

(** X12: on a message that the constructor returned, [get_expiration_time]
    and [get_not_before] return, and never raise: [None] for a field that is
    unset, the time [isoparse] gives for a field that is set; the object and
    the environment are left as they are. *)
Theorem times_of_constructed (ext : Externals) (message : message_input)
  (abnf require_address : bool) (m : SiweMessage) :
  SiweMessage_init ext message abnf require_address = Return m ->
  forall w,
    let s := {| self := m; world := w |} in
    exists e nb,
      get_expiration_time ext s = (Return e, s)
      /\ get_not_before ext s = (Return nb, s)
      /\ (forall t, expiration_time m = Some t ->
          exists d, isoparse ext t = inr d /\ e = Some d)
      /\ (expiration_time m = None -> e = None)
      /\ (forall t, not_before m = Some t ->
          exists d, isoparse ext t = inr d /\ nb = Some d)
      /\ (not_before m = None -> nb = None).
Proof.
  intros Hinit w. cbv zeta. apply init_returns in Hinit.
  destruct Hinit as [d [_ [[_ [_ [_ [_ [_ [V6 [V7 _]]]]]]] ->]]].
  unfold get_expiration_time, get_not_before, bind, get_self.
  cbn [self stored expiration_time not_before].
  rewrite !parse_optional_run. unfold parses in V6, V7.
  destruct (key_expiration_time d) as [te|];
    [destruct (V6 te eq_refl) as [de Hde]; rewrite Hde |];
    (destruct (key_not_before d) as [tn|];
     [destruct (V7 tn eq_refl) as [dn Hdn]; rewrite Hdn |]);
    eexists; eexists;
    (split; [reflexivity|]); (split; [reflexivity|]);
    repeat split; try discriminate;
    intros t Ht; injection Ht as <-; eauto.
Qed.

Lemma times_of_constructed_witness :
  let s :=
    {| self := stored Sample.ext Sample.full_fields true;
       world := Sample.w0 |} in
  exists e nb,
    get_expiration_time Sample.ext s = (Return e, s)
    /\ get_not_before Sample.ext s = (Return nb, s)
    /\ (forall t, expiration_time (self s) = Some t ->
        exists d, isoparse Sample.ext t = inr d /\ e = Some d)
    /\ (expiration_time (self s) = None -> e = None)
    /\ (forall t, not_before (self s) = Some t ->
        exists d, isoparse Sample.ext t = inr d /\ nb = Some d)
    /\ (not_before (self s) = None -> nb = None).
Proof.
  cbv zeta.
  exact (times_of_constructed Sample.ext (MessageDict Sample.full_fields)
           true true (stored Sample.ext Sample.full_fields true) eq_refl
           Sample.w0).
Defined.

(** ** The environment *)

(** X15: for a message whose nonce and time of issue are set, the text of
    [prepare_message], and the result of [verify] with a timestamp given, do
    not depend on the environment: the randomness source and the clock play
    no part. *)
Theorem complete_message_ignores_environment (ext : Externals)
  (m : SiweMessage) :
  nonce m <> None -> issued_at m <> None ->
  forall w w',
    fst (prepare_message ext {| self := m; world := w |})
    = fst (prepare_message ext {| self := m; world := w' |})
    /\ forall signature expected_domain expected_nonce t provider,
         fst (verify ext signature expected_domain expected_nonce (Some t)
                provider {| self := m; world := w |})
         = fst (verify ext signature expected_domain expected_nonce (Some t)
                  provider {| self := m; world := w' |}).
Proof.
  intros Hn Ht w w'. split.
  - rewrite !prepare_message_eq, !defaulted_fixed by assumption. reflexivity.
  - intros signature expected_domain expected_nonce t provider.
    rewrite !verify_run. cbn [fst]. apply checks_result_same.
    unfold checked. rewrite !defaulted_fixed by assumption. reflexivity.
Qed.

Lemma complete_message_ignores_environment_witness :
  let w' :=
    {| entropy := fun k => 7 * k + 3; draws := 5;
       clock := fun _ => Sample.us2022; reads := 9;
       trace := [EvClockUTC] |} in
  fst (prepare_message Sample.ext {| self := Sample.login; world := Sample.w0 |})
  = fst (prepare_message Sample.ext {| self := Sample.login; world := w' |})
  /\ forall signature expected_domain expected_nonce t provider,
       fst (verify Sample.ext signature expected_domain expected_nonce (Some t)
              provider {| self := Sample.login; world := Sample.w0 |})
       = fst (verify Sample.ext signature expected_domain expected_nonce
                (Some t) provider {| self := Sample.login; world := w' |}).
Proof.
  cbv zeta.
  apply (complete_message_ignores_environment Sample.ext Sample.login);
    discriminate.
Defined.

Lemma checks_world_events (ext : Externals) (signature : string)
  (d n : option string) (timestamp : option datetime) (s : State) :
  let m := checked ext s in
  let vt := instant ext timestamp s in
  exists evs,
    trace (checks_world ext signature d n timestamp s)
    = (trace (world (defaulted ext s)) ++ evs)%list
    /\ (In EvClockUTC evs <->
        timestamp = None /\ first_failure (context_checks m d n) = None)
    /\ (forall e, In e evs -> e = EvClockUTC \/ e = EvRecover signature)
    /\ List.length evs <= 2.
Proof.
  cbv zeta. unfold checks_world.
  destruct (first_failure (context_checks (checked ext s) d n)) as [e|].
  { exists []. rewrite app_nil_r. split; [reflexivity|].
    split; [split; [intros [] | intros [_ H]; discriminate]|].
    split; [intros x [] | cbn; lia]. }
  destruct (first_failure
              (time_checks ext (checked ext s) (instant ext timestamp s)))
    as [e|];
    destruct timestamp as [t|]; unfold log, after_read; cbn [trace].
  - exists []. rewrite app_nil_r. split; [reflexivity|].
    split; [split; [intros [] | intros [H _]; discriminate]|].
    split; [intros x [] | cbn; lia].
  - exists [EvClockUTC]. split; [reflexivity|].
    split; [split; [auto | intros _; left; reflexivity]|].
    split; [intros x [<- | []]; auto | cbn; lia].
  - exists [EvRecover signature]. split; [reflexivity|].
    split; [split; [intros [H | []]; discriminate
                   | intros [H _]; discriminate]|].
    split; [intros x [<- | []]; auto | cbn; lia].
  - exists [EvClockUTC; EvRecover signature].
    rewrite <- app_assoc. split; [reflexivity|].
    split; [split; [auto | intros _; left; reflexivity]|].
    split; [intros x [<- | [<- | []]]; auto | cbn; lia].
Qed.

(** X16: after producing the text, [verify] leaves the module at most twice:
    it reads the UTC clock exactly when no timestamp is given and the checks
    before the time checks pass, and otherwise only calls signature recovery,
    with the signature it was given; it draws no randomness and does not read
    the local clock. *)
Theorem verify_effects (ext : Externals) (signature : string)
  (expected_domain expected_nonce : option string)
  (timestamp : option datetime) (provider : option HTTPProvider) (s : State) :
  let run :=
    verify ext signature expected_domain expected_nonce timestamp provider s in
  let m := self (snd (prepare_message ext s)) in
  exists evs,
    trace (world (snd run))
    = (trace (world (snd (prepare_message ext s))) ++ evs)%list
    /\ (In EvClockUTC evs <->
        timestamp = None
        /\ first_failure (context_checks m expected_domain expected_nonce)
           = None)
    /\ (forall e, In e evs -> e = EvClockUTC \/ e = EvRecover signature)
    /\ List.length evs <= 2.
Proof.
  cbv zeta. rewrite verify_run, prepare_message_eq. cbn [snd self world].
  apply checks_world_events.
Qed.
